(** * ecoNET-300 integration: the HTTP client, the cache and the API facade

    A shallow embedding of [custom_components/econet300/api.py]:
    - [EconetClient]: host normalisation and the bounded-retry [_get];
    - [Econet300Api]: [init], [set_param], [get_param_limits] and the
      registry reads, over the client and a [MemCache].

    Python values are the values [resp.json()] produces.  A coroutine is a
    function from the state before the call to its outcome (a returned value
    or a raised exception) and the state after it.  The state holds the trace
    of what the integration did on the network (requests and sleeps), the
    cache and the identity attributes of the facade object.  The device and
    the network are a function from the trace so far and the requested URL to
    what the request yields.  Calls to the logger do not influence control
    flow or state and are left out. *)

From Stdlib Require Import ZArith String Ascii List Lia.
From stdpp Require Import gmap strings list fin_maps pretty.
From Equations Require Import Equations.

#[local] Set Warnings "-register-all".
#[local] Open Scope string_scope.
#[local] Open Scope Z_scope.

(** ** Python values *)

(** What [resp.json()] returns: [JNull] is Python's [None], an object is a
    [dict] with [str] keys.  Numbers are the integers; the code modelled here
    only passes numbers along. *)
Inductive json : Type :=
| JNull
| JBool (b : bool)
| JNum (n : Z)
| JStr (s : string)
| JArr (l : list json)
| JObj (m : gmap string json).

(** The exceptions the modelled code raises or lets through.  [ClientError]
    stands for whatever the HTTP session raises other than [TimeoutError]. *)
Inductive exn : Type :=
| AuthError
| DataError
| TypeError
| KeyError
| ClientError.

#[global] Instance exn_eq_dec : EqDecision exn.
Proof. solve_decision. Defined.

Inductive result (A : Type) : Type :=
| Ok (a : A)
| Raise (e : exn).
Arguments Ok {A} a.
Arguments Raise {A} e.

Module Py.

(** [sub in s] on two [str]. *)
Fixpoint str_in (sub s : string) : bool :=
  String.prefix sub s ||
  match s with
  | EmptyString => false
  | String _ s' => str_in sub s'
  end.

(** [x == key] for a [str] [key]. *)
Definition eq_str (x : json) (key : string) : bool :=
  match x with
  | JStr s => String.eqb s key
  | _ => false
  end.

(** [key in container] for a [str] [key]: key membership on a dict, element
    membership on a list, substring on a str, [TypeError] otherwise. *)
Definition contains (key : string) (container : json) : result bool :=
  match container with
  | JObj m => Ok (match m !! key with Some _ => true | None => false end)
  | JArr l => Ok (existsb (fun x => eq_str x key) l)
  | JStr s => Ok (str_in key s)
  | JNull | JBool _ | JNum _ => Raise TypeError
  end.

(** [container[key]] for a [str] [key]. *)
Definition getitem (container : json) (key : string) : result json :=
  match container with
  | JObj m => match m !! key with Some v => Ok v | None => Raise KeyError end
  | _ => Raise TypeError
  end.

End Py.

(** ** const.py

    The module is not part of the sources at hand; its names are taken as
    parameters. *)
Class Const : Type := {
  API_EDITABLE_PARAMS_LIMITS_DATA : string;
  API_EDITABLE_PARAMS_LIMITS_URI : string;
  API_REG_PARAMS_DATA_PARAM_DATA : string;
  API_REG_PARAMS_DATA_URI : string;
  API_REG_PARAMS_PARAM_DATA : string;
  API_REG_PARAMS_URI : string;
  API_SYS_PARAMS_PARAM_HW_VER : string;
  API_SYS_PARAMS_PARAM_MODEL_ID : string;
  API_SYS_PARAMS_PARAM_SW_REV : string;
  API_SYS_PARAMS_PARAM_UID : string;
  API_SYS_PARAMS_URI : string;
  EDITABLE_PARAMS_MAPPING_TABLE : gmap string string
}.

(** ** mem_cache.py *)

Module MemCache.

(** The class [MemCache] of [mem_cache.py] is not part of the sources at
    hand.  A cache is the finite map from the keys that were set to their
    last value: "Cache Entry: key -> last-known value; no eviction, no TTL;
    entries persist for the lifetime of the process".  What [get] returns for
    a key that was never set is not said; [get] is partial here, and the
    facade reads a key only after it has seen or made it exist. *)

(** Modelled from the spec: [MemCache.exists] of [mem_cache.py],
    "[exists(key) -> bool]": whether the key was set. *)
Definition exists_ (c : gmap string json) (key : string) : bool :=
  match c !! key with Some _ => true | None => false end.

(** Modelled from the spec: [MemCache.get] of [mem_cache.py],
    "[get(key) -> value]": the last value set for the key. *)
Definition get (c : gmap string json) (key : string) : option json :=
  c !! key.

(** Modelled from the spec: [MemCache.set] of [mem_cache.py],
    "[set(key, value) -> void]": the entry of the key becomes the value, the
    other entries stay. *)
Definition set (c : gmap string json) (key : string) (value : json)
  : gmap string json :=
  <[key := value]> c.

End MemCache.

(** ** The network and the state *)

(** What one [session.get(url, auth=..., timeout=10)] inside the [try] block
    of [_get] yields: [TimeoutError], another exception, or a response with
    its status and decoded body. *)
Inductive outcome : Type :=
| Timeout
| Failed
| Response (status : Z) (body : json).

Inductive event : Type :=
| EvGet (url : string)
| EvSleep (seconds : Z).

Record state : Type := mkState {
  trace : list event;
  cache : gmap string json;
  _uid : json;
  _model_id : json;
  _sw_revision : json;
  _hw_version : json
}.

Definition with_trace (st : state) (t : list event) : state :=
  mkState t (cache st) (_uid st) (_model_id st) (_sw_revision st) (_hw_version st).
Definition with_cache (st : state) (c : gmap string json) : state :=
  mkState (trace st) c (_uid st) (_model_id st) (_sw_revision st) (_hw_version st).
Definition with_uid (st : state) (v : json) : state :=
  mkState (trace st) (cache st) v (_model_id st) (_sw_revision st) (_hw_version st).
Definition with_model_id (st : state) (v : json) : state :=
  mkState (trace st) (cache st) (_uid st) v (_sw_revision st) (_hw_version st).
Definition with_sw_revision (st : state) (v : json) : state :=
  mkState (trace st) (cache st) (_uid st) (_model_id st) v (_hw_version st).
Definition with_hw_version (st : state) (v : json) : state :=
  mkState (trace st) (cache st) (_uid st) (_model_id st) (_sw_revision st) v.

(** ** Coroutines: state and exceptions *)

Definition M (A : Type) : Type := state -> result A * state.

Definition ret {A} (a : A) : M A := fun st => (Ok a, st).

Definition raise {A} (e : exn) : M A := fun st => (Raise e, st).

Definition bind {A B} (m : M A) (k : A -> M B) : M B :=
  fun st =>
    match m st with
    | (Ok a, st') => k a st'
    | (Raise e, st') => (Raise e, st')
    end.

Definition lift {A} (r : result A) : M A := fun st => (r, st).

(** [try: m except e: handler]. *)
Definition try_except {A} (m : M A) (e : exn) (handler : M A) : M A :=
  fun st =>
    match m st with
    | (Raise e', st') =>
        if decide (e' = e) then handler st' else (Raise e', st')
    | r => r
    end.

Declare Scope coro_scope.
Delimit Scope coro_scope with coro.
Notation "x <- c ;; k" := (bind c (fun x => k))
  (at level 100, c at next level, right associativity) : coro_scope.
Notation "c ;;; k" := (bind c (fun _ => k))
  (at level 100, right associativity) : coro_scope.
#[local] Open Scope coro_scope.

(** [asyncio.sleep(seconds)]. *)
Definition sleep (seconds : Z) : M unit :=
  fun st => (Ok tt, with_trace st (trace st ++ [EvSleep seconds])).

(** Status codes of [http.HTTPStatus]. *)
Module HTTPStatus.
Definition OK : Z := 200.
Definition UNAUTHORIZED : Z := 401.
End HTTPStatus.

(** ** class EconetClient *)

Module EconetClient.

Record t : Type := mk {
  _host : string;
  _auth : string * string;
  _model_id : string;
  _sw_revision : string
}.

Definition proto : list string := ["http://"; "https://"].

(** [EconetClient.__init__]; the session is the section variable [net]
    below. *)
Definition __init__ (host username password : string) : t :=
  let not_contains := forallb (fun p => negb (Py.str_in p host)) proto in
  let host := if not_contains then "http://" +:+ host else host in
  mk host (username, password) "default-model-id" "default-sw-revision".

(** The [host] property. *)
Definition host (self : t) : string := _host self.

Section Session.

(** The session: what a GET of a URL yields, given all that happened on the
    network before.  Credentials and the per-request timeout of 10 are the
    same for every request of a client and are part of this behaviour. *)
Variable net : list event -> string -> outcome.

Definition max_attempts : Z := 5.

(** The [while attempt <= max_attempts] loop of [_get], from the value of
    [attempt] on. *)
Equations? _get_loop (url : string) (attempt : Z) (st : state)
  : result json * state
  by wf (Z.to_nat (max_attempts + 1 - attempt)) lt :=
_get_loop url attempt st with decide (attempt <= max_attempts) => {
  | right _ := (Ok JNull, st)
  | left _ with net (trace st) url => {
    | Response status body :=
        let st1 := with_trace st (trace st ++ [EvGet url]) in
        if status =? HTTPStatus.UNAUTHORIZED then (Raise AuthError, st1)
        else if negb (status =? HTTPStatus.OK) then (Ok JNull, st1)
        else (Ok body, st1)
    | Failed :=
        (Raise ClientError, with_trace st (trace st ++ [EvGet url]))
    | Timeout :=
        let st1 := with_trace st (trace st ++ [EvGet url]) in
        _get_loop url (attempt + 1) (snd (sleep 1 st1)) } }.
Proof. unfold max_attempts in *. lia. Qed.

Definition _get (self : t) (url : string) : M json :=
  _get_loop url 1.

Definition set_param (self : t) (key value : string) : M json :=
  _get self
    (_host self +:+ "/econet/rmCurrNewParam?newParamKey=" +:+ key
       +:+ "&newParamValue=" +:+ value).

Definition fetch_sys_params (self : t) (reg : string) : M json :=
  data <- _get self (_host self +:+ "/econet/" +:+ reg) ;;
  ret data.

End Session.

End EconetClient.

(** ** map_param and class Limits *)

Definition map_param `{Const} (param_name : string) : option string :=
  match EDITABLE_PARAMS_MAPPING_TABLE !! param_name with
  | None => None
  | Some mapped => Some mapped
  end.

Module Limits.
Record t : Type := mk { min : json; max : json }.
End Limits.

(** ** class Econet300Api *)

Module Econet300Api.

(** [Econet300Api.__init__(client, cache)]: the attributes of the new
    object, in a world whose network trace so far is [tr]. *)
Definition __init__ (cache : gmap string json) (tr : list event) : state :=
  mkState tr cache
    (JStr "default-uid") (JStr "default-model-id")
    (JStr "default-sw-revision") (JStr "default-hw-version").

(** The properties [uid], [model_id], [sw_rev], [hw_ver]. *)
Definition uid (st : state) : json := _uid st.
Definition model_id (st : state) : json := _model_id st.
Definition sw_rev (st : state) : json := _sw_revision st.
Definition hw_ver (st : state) : json := _hw_version st.

(** The calls on [self._cache]. *)
Definition _cache_exists (key : string) : M bool :=
  fun st => (Ok (MemCache.exists_ (cache st) key), st).

Definition _cache_get (key : string) : M json :=
  fun st =>
    match MemCache.get (cache st) key with
    | Some v => (Ok v, st)
    | None => (Raise KeyError, st)
    end.

Definition _cache_set (key : string) (value : json) : M unit :=
  fun st => (Ok tt, with_cache st (MemCache.set (cache st) key value)).

(** One [if KEY not in sys_params: (warn) else: self.attr = sys_params[KEY]]
    block of [init]; [assign] is the assignment to the attribute. *)
Definition fill_attr (key : string) (sys_params : json)
    (assign : state -> json -> state) : M unit :=
  present <- lift (Py.contains key sys_params) ;;
  if negb present then ret tt
  else
    v <- lift (Py.getitem sys_params key) ;;
    (fun st => (Ok tt, assign st v)).

Section Api.

Context {K : Const}.
Variable net : list event -> string -> outcome.
(** [self._client]. *)
Variable client : EconetClient.t.

Definition host : string := EconetClient.host client.

Definition init : M unit :=
  sys_params <- EconetClient.fetch_sys_params net client API_SYS_PARAMS_URI ;;
  match sys_params with
  | JNull => ret tt
  | _ =>
      fill_attr API_SYS_PARAMS_PARAM_UID sys_params with_uid ;;;
      fill_attr API_SYS_PARAMS_PARAM_MODEL_ID sys_params with_model_id ;;;
      fill_attr API_SYS_PARAMS_PARAM_SW_REV sys_params with_sw_revision ;;;
      fill_attr API_SYS_PARAMS_PARAM_HW_VER sys_params with_hw_version
  end.

(** The classmethod [create(client, cache)]. *)
Definition create (cache : gmap string json) (tr : list event)
  : result unit * state :=
  init (__init__ cache tr).

Definition set_param (param : option string) (value : string) : M bool :=
  match param with
  | None => ret false
  | Some param =>
      data <- EconetClient.set_param net client param value ;;
      match data with
      | JNull => ret false
      | _ =>
          has_result <- lift (Py.contains "result" data) ;;
          if negb has_result then ret false
          else
            r <- lift (Py.getitem data "result") ;;
            if negb (Py.eq_str r "OK") then ret false
            else
              _cache_set param (JStr value) ;;;
              ret true
      end
  end.

Definition _fetch_reg_key (reg : string) (data_key : option string)
  : M json :=
  data <- EconetClient.fetch_sys_params net client reg ;;
  match data with
  | JNull => raise DataError
  | _ =>
      match data_key with
      | None => ret data
      | Some data_key =>
          present <- lift (Py.contains data_key data) ;;
          if negb present then raise DataError
          else lift (Py.getitem data data_key)
      end
  end.

Definition get_param_limits (param : option string)
  : M (option Limits.t) :=
  cached <- _cache_exists API_EDITABLE_PARAMS_LIMITS_DATA ;;
  (if negb cached then
     limits <- _fetch_reg_key API_EDITABLE_PARAMS_LIMITS_URI
                 (Some API_EDITABLE_PARAMS_LIMITS_DATA) ;;
     _cache_set API_EDITABLE_PARAMS_LIMITS_DATA limits
   else ret tt) ;;;
  limits <- _cache_get API_EDITABLE_PARAMS_LIMITS_DATA ;;
  match param with
  | None => ret None
  | Some param =>
      present <- lift (Py.contains param limits) ;;
      if negb present then ret None
      else
        curr_limits <- lift (Py.getitem limits param) ;;
        min_v <- lift (Py.getitem curr_limits "min") ;;
        max_v <- lift (Py.getitem curr_limits "max") ;;
        ret (Some (Limits.mk min_v max_v))
  end.

Definition fetch_reg_params_data : M json :=
  try_except
    (_fetch_reg_key API_REG_PARAMS_DATA_URI
       (Some API_REG_PARAMS_DATA_PARAM_DATA))
    DataError
    (ret (JObj ∅)).

Definition fetch_param_edit_data : M json :=
  cached <- _cache_exists API_EDITABLE_PARAMS_LIMITS_DATA ;;
  (if negb cached then
     limits <- _fetch_reg_key API_EDITABLE_PARAMS_LIMITS_URI
                 (Some API_EDITABLE_PARAMS_LIMITS_DATA) ;;
     _cache_set API_EDITABLE_PARAMS_LIMITS_DATA limits
   else ret tt) ;;;
  _cache_get API_EDITABLE_PARAMS_LIMITS_DATA.

Definition fetch_sys_params : M json :=
  EconetClient.fetch_sys_params net client API_SYS_PARAMS_URI.

Definition _fetch_reg_names (reg : string) (data_key : option string)
  : M json :=
  data <- EconetClient.fetch_sys_params net client reg ;;
  match data with
  | JNull => raise DataError
  | _ =>
      match data_key with
      | None => ret data
      | Some data_key =>
          present <- lift (Py.contains data_key data) ;;
          if negb present then raise DataError
          else
            value <- lift (Py.getitem data data_key) ;;
            ret value
      end
  end.

Definition fetch_reg_params : M json :=
  regParams <- _fetch_reg_names API_REG_PARAMS_URI
                 (Some API_REG_PARAMS_PARAM_DATA) ;;
  ret regParams.

End Api.

End Econet300Api.

(** [make_api(hass, cache, data)], with the three entries of [data]. *)
Definition make_api `{Const} (net : list event -> string -> outcome)
    (cache : gmap string json) (host username password : string)
    (tr : list event) : result unit * state :=
  Econet300Api.create net
    (EconetClient.__init__ host username password) cache tr.

(** ** sensor.py

    The tables of [const.py] and [camel_to_snake] of [common_functions.py]
    are not part of the sources at hand; they are taken as parameters.  The
    values of the description tables are named by strings. *)
Class SensorConst : Type := {
  AVAILABLE_NUMBER_OF_MIXERS : nat;
  ENTITY_CATEGORY : gmap string string;
  ENTITY_ICON : gmap string string;
  ENTITY_PRECISION : gmap string Z;
  ENTITY_SENSOR_DEVICE_CLASS_MAP : gmap string string;
  ENTITY_UNIT_MAP : gmap string string;
  ENTITY_VALUE_PROCESSOR : gmap string (json -> json);
  SENSOR_MAP_KEY : gmap string (list string);
  SENSOR_MIXER_KEY : gmap string (list string);
  STATE_CLASS_MAP : gmap string string;
  camel_to_snake : string -> string
}.

Module Sensor.

(** Functions that return or raise, without state. *)
Definition rbind {A B} (r : result A) (k : A -> result B) : result B :=
  match r with
  | Ok a => k a
  | Raise e => Raise e
  end.

(** [EconetSensorEntityDescription], with the fields the two constructors
    of descriptions give. *)
Record EconetSensorEntityDescription : Type := mkDescription {
  key : string;
  device_class : option string;
  entity_category : option string;
  translation_key : string;
  icon : option string;
  native_unit_of_measurement : option string;
  state_class : option string;
  suggested_display_precision : option Z;
  process_val : json -> json
}.

(** The coordinator as the functions of this file use it: its [data] and
    its method [has_reg_data], whose class is not part of the sources at
    hand. *)
Record EconetDataCoordinator : Type := mkCoordinator {
  data : json;
  has_reg_data : string -> bool
}.

(** The entities, as the calls that construct them:
    [EconetSensor(description, coordinator, api)] and
    [MixerSensor(description, coordinator, api, idx)] over a given
    coordinator and API. *)
Inductive entity : Type :=
| EconetSensor (entity_description : EconetSensorEntityDescription)
| MixerSensor (description : EconetSensorEntityDescription) (idx : nat).

Section Sensors.

Context {SC : SensorConst}.

Definition create_entity_description (key : string)
  : EconetSensorEntityDescription :=
  mkDescription key
    (ENTITY_SENSOR_DEVICE_CLASS_MAP !! key)
    (ENTITY_CATEGORY !! key)
    (camel_to_snake key)
    (ENTITY_ICON !! key)
    (ENTITY_UNIT_MAP !! key)
    (STATE_CLASS_MAP !! key)
    (ENTITY_PRECISION !! key)
    (default (fun x => x) (ENTITY_VALUE_PROCESSOR !! key)).

(** The [for data_key in SENSOR_MAP_KEY["_default"]] loop of
    [create_controller_sensors], over the keys still to come. *)
Fixpoint controller_sensors_loop (keys : list string)
    (coordinator_data : json) (entities : list entity)
  : result (list entity) :=
  match keys with
  | [] => Ok entities
  | data_key :: keys' =>
      rbind (Py.contains data_key coordinator_data) (fun present =>
        if present then
          controller_sensors_loop keys' coordinator_data
            (entities ++ [EconetSensor (create_entity_description data_key)])
        else controller_sensors_loop keys' coordinator_data entities)
  end.

Definition create_controller_sensors (coordinator : EconetDataCoordinator)
  : result (list entity) :=
  rbind (Py.getitem (data coordinator) "regParams") (fun coordinator_data =>
    match SENSOR_MAP_KEY !! "_default" with
    | None => Raise KeyError
    | Some keys => controller_sensors_loop keys coordinator_data []
    end).

(** [x is not None]. *)
Definition is_not_none (x : json) : bool :=
  match x with
  | JNull => false
  | _ => true
  end.

(** [can_add_mixer]; the first line is the argument of the call to the
    logger, which is evaluated before anything is logged. *)
Definition can_add_mixer (key : string) (coordinator : EconetDataCoordinator)
  : result bool :=
  rbind (Py.getitem (data coordinator) "regParams") (fun _ =>
    if has_reg_data coordinator key then
      rbind (Py.getitem (data coordinator) "regParams") (fun reg_params =>
        rbind (Py.getitem reg_params key) (fun value =>
          Ok (is_not_none value)))
    else Ok false).

Definition create_mixer_sensor_entity_description (key : string)
  : EconetSensorEntityDescription :=
  mkDescription key
    (ENTITY_SENSOR_DEVICE_CLASS_MAP !! key)
    None
    (camel_to_snake key)
    (ENTITY_ICON !! key)
    (ENTITY_UNIT_MAP !! key)
    (STATE_CLASS_MAP !! key)
    (Some (default 0 (ENTITY_PRECISION !! key)))
    (default (fun x => x) (ENTITY_VALUE_PROCESSOR !! key)).

(** The [for key in mixer_keys] loop of [create_mixer_sensors] for the
    mixer [i]. *)
Fixpoint mixer_keys_loop (i : nat) (mixer_keys : list string)
    (coordinator : EconetDataCoordinator) (entities : list entity)
  : result (list entity) :=
  match mixer_keys with
  | [] => Ok entities
  | key :: keys' =>
      rbind (can_add_mixer key coordinator) (fun can_add =>
        if can_add then
          mixer_keys_loop i keys' coordinator
            (entities
               ++ [MixerSensor (create_mixer_sensor_entity_description key) i])
        else mixer_keys_loop i keys' coordinator entities)
  end.

(** The [for i in range(1, AVAILABLE_NUMBER_OF_MIXERS + 1)] loop, over the
    numbers still to come; [str(i)] is [pretty i]. *)
Fixpoint mixers_loop (numbers : list nat)
    (coordinator : EconetDataCoordinator) (entities : list entity)
  : result (list entity) :=
  match numbers with
  | [] => Ok entities
  | i :: numbers' =>
      let string_mix := pretty i in
      match SENSOR_MIXER_KEY !! string_mix with
      | Some (key :: keys') =>
          rbind (mixer_keys_loop i (key :: keys') coordinator entities)
            (fun entities' => mixers_loop numbers' coordinator entities')
      | _ => mixers_loop numbers' coordinator entities
      end
  end.

Definition create_mixer_sensors (coordinator : EconetDataCoordinator)
  : result (list entity) :=
  mixers_loop (seq 1 AVAILABLE_NUMBER_OF_MIXERS) coordinator [].

End Sensors.

End Sensor.

(** ** Vocabulary of the properties *)

(** [n] rounds of a request of [url] that times out and the pause that
    follows it. *)
Fixpoint timeouts (url : string) (n : nat) : list event :=
  match n with
  | O => []
  | S n' => EvGet url :: EvSleep 1 :: timeouts url n'
  end.

(** The number of requests in a trace. *)
Definition requests (tr : list event) : nat :=
  List.length (List.filter (fun e => match e with EvGet _ => true | _ => false end) tr).

(** The URL of the write of [value] to [key]. *)
Definition write_url (client : EconetClient.t) (key value : string) : string :=
  EconetClient.host client +:+ "/econet/rmCurrNewParam?newParamKey=" +:+ key
    +:+ "&newParamValue=" +:+ value.

(** The URL of the registry [reg]. *)
Definition reg_url (client : EconetClient.t) (reg : string) : string :=
  EconetClient.host client +:+ "/econet/" +:+ reg.

(** A response that confirms a write: an object whose ["result"] is the
    string ["OK"]. *)
Definition confirmed (data : json) : bool :=
  match data with
  | JObj m =>
      match m !! "result" with
      | Some (JStr s) => String.eqb s "OK"
      | _ => false
      end
  | _ => false
  end.

(** An envelope: [None] or a JSON object. *)
Definition envelope (data : json) : Prop :=
  data = JNull \/ exists m, data = JObj m.

(** The operations of the facade, and what they return. *)
Inductive op : Type :=
| Init
| SetParam (param : option string) (value : string)
| GetParamLimits (param : option string)
| FetchRegParamsData
| FetchParamEditData
| FetchSysParams
| FetchRegParams.

Inductive retval : Type :=
| RNone
| RBool (b : bool)
| RJson (j : json)
| RLimits (l : option Limits.t).

Section Calls.

Context {K : Const}.
Variable net : list event -> string -> outcome.
Variable client : EconetClient.t.

Definition call (o : op) : M retval :=
  match o with
  | Init =>
      Econet300Api.init net client ;;; ret RNone
  | SetParam param value =>
      b <- Econet300Api.set_param net client param value ;; ret (RBool b)
  | GetParamLimits param =>
      l <- Econet300Api.get_param_limits net client param ;; ret (RLimits l)
  | FetchRegParamsData =>
      j <- Econet300Api.fetch_reg_params_data net client ;; ret (RJson j)
  | FetchParamEditData =>
      j <- Econet300Api.fetch_param_edit_data net client ;; ret (RJson j)
  | FetchSysParams =>
      j <- Econet300Api.fetch_sys_params net client ;; ret (RJson j)
  | FetchRegParams =>
      j <- Econet300Api.fetch_reg_params net client ;; ret (RJson j)
  end.

(** The URL of the first request of an operation, when it makes one: a
    [set_param] without a key makes none, and the two reads of the limits
    make theirs on a cold cache only. *)
Definition request_url (o : op) (st : state) : option string :=
  match o with
  | Init | FetchSysParams => Some (reg_url client API_SYS_PARAMS_URI)
  | SetParam None _ => None
  | SetParam (Some key) value => Some (write_url client key value)
  | GetParamLimits _ | FetchParamEditData =>
      if MemCache.exists_ (cache st) API_EDITABLE_PARAMS_LIMITS_DATA
      then None
      else Some (reg_url client API_EDITABLE_PARAMS_LIMITS_URI)
  | FetchRegParamsData => Some (reg_url client API_REG_PARAMS_DATA_URI)
  | FetchRegParams => Some (reg_url client API_REG_PARAMS_URI)
  end.

(** The state after a sequence of calls, whatever each of them returns or
    raises. *)
Definition run (ops : list op) (st : state) : state :=
  fold_left (fun s o => snd (call o s)) ops st.

End Calls.

(** The part of [get_param_limits] that follows the read of the table from
    the cache: the look-up of [param] in [limits]. *)
Definition limits_entry (param : option string) (limits : json)
  : M (option Limits.t) :=
  match param with
  | None => ret None
  | Some param =>
      present <- lift (Py.contains param limits) ;;
      if negb present then ret None
      else
        curr_limits <- lift (Py.getitem limits param) ;;
        min_v <- lift (Py.getitem curr_limits "min") ;;
        max_v <- lift (Py.getitem curr_limits "max") ;;
        ret (Some (Limits.mk min_v max_v))
  end.


(** Every run of [m] takes a state to an [R]-related one, whether [m]
    returns or raises. *)
Definition steps (R : state -> state -> Prop) {A} (m : M A) : Prop :=
  forall st, R st (snd (m st)).

(** Two such relations: the cache is the same; the trace grew and nothing
    else changed. *)
Definition same_cache (st st' : state) : Prop := cache st' = cache st.

Definition only_trace (st st' : state) : Prop :=
  exists evs, st' = with_trace st (trace st ++ evs).

(** The identity attributes are the same. *)
Definition same_identity (st st' : state) : Prop :=
  _uid st' = _uid st /\ _model_id st' = _model_id st /\
  _sw_revision st' = _sw_revision st /\ _hw_version st' = _hw_version st.

(** The trace is the same. *)
Definition same_trace (st st' : state) : Prop := trace st' = trace st.

(** The exceptions an operation of the facade can let out. *)
Definition may_raise (o : op) : list exn :=
  match o with
  | FetchSysParams => [AuthError; ClientError]
  | Init | SetParam _ _ | FetchRegParamsData =>
      [AuthError; ClientError; TypeError]
  | FetchRegParams | FetchParamEditData =>
      [AuthError; ClientError; TypeError; DataError]
  | GetParamLimits _ =>
      [AuthError; ClientError; TypeError; DataError; KeyError]
  end.

(** Whether [key] has an entry in the register parameters [reg], and
    whether that entry is not [None]. *)
Definition in_reg (reg : gmap string json) (key : string) : bool :=
  match reg !! key with Some _ => true | None => false end.

Definition has_value (reg : gmap string json) (key : string) : bool :=
  match reg !! key with Some v => Sensor.is_not_none v | None => false end.

(** The sensors of the mixer [i]: one for each key listed for it that
    [has_reg_data] accepts and that has a value. *)
Definition mixer_sensors `{SensorConst}
    (coordinator : Sensor.EconetDataCoordinator) (reg : gmap string json)
    (i : nat) : list Sensor.entity :=
  match SENSOR_MIXER_KEY !! pretty i with
  | Some keys =>
      List.map
        (fun key =>
           Sensor.MixerSensor
             (Sensor.create_mixer_sensor_entity_description key) i)
        (List.filter
           (fun key => Sensor.has_reg_data coordinator key
                       && has_value reg key) keys)
  | None => []
  end.

(** "The caller supplied a scheme": the host starts with a URI scheme (a
    letter, then letters, digits, [+], [-] or [.]) followed by ["://"]. *)
Definition is_alpha (c : ascii) : bool :=
  let n := nat_of_ascii c in
  ((65 <=? n) && (n <=? 90) || (97 <=? n) && (n <=? 122))%nat.

Definition is_scheme_char (c : ascii) : bool :=
  let n := nat_of_ascii c in
  is_alpha c || ((48 <=? n) && (n <=? 57))%nat
  || (n =? 43)%nat || (n =? 45)%nat || (n =? 46)%nat.

Fixpoint scheme_rest (s : string) : bool :=
  String.prefix "://" s ||
  match s with
  | EmptyString => false
  | String c s' => is_scheme_char c && scheme_rest s'
  end.

Definition supplied_scheme (host : string) : bool :=
  match host with
  | EmptyString => false
  | String c s' => is_alpha c && scheme_rest s'
  end.

(** ** Sample worlds *)

(** Names in the style of the device's API, for the examples. *)
Definition sample_const : Const := {|
  API_EDITABLE_PARAMS_LIMITS_DATA := "data";
  API_EDITABLE_PARAMS_LIMITS_URI := "rmCurrentDataParamsEdits";
  API_REG_PARAMS_DATA_PARAM_DATA := "data";
  API_REG_PARAMS_DATA_URI := "regParamsData";
  API_REG_PARAMS_PARAM_DATA := "curr";
  API_REG_PARAMS_URI := "regParams";
  API_SYS_PARAMS_PARAM_HW_VER := "routerType";
  API_SYS_PARAMS_PARAM_MODEL_ID := "controllerID";
  API_SYS_PARAMS_PARAM_SW_REV := "softVer";
  API_SYS_PARAMS_PARAM_UID := "uid";
  API_SYS_PARAMS_URI := "sysParams";
  EDITABLE_PARAMS_MAPPING_TABLE := {[ "tempCOSet" := "1280" ]}
|}.

Definition sample_client : EconetClient.t :=
  EconetClient.__init__ "boiler.local" "admin" "secret".

(** A fresh facade object over an empty cache, nothing done on the network
    yet. *)
Definition fresh : state := Econet300Api.__init__ ∅ [].

(** A network on which every request times out. *)
Definition net_dead : list event -> string -> outcome :=
  fun _ _ => Timeout.

(** A device that answers every request with [status] and [body]. *)
Definition net_always (status : Z) (body : json)
  : list event -> string -> outcome :=
  fun _ _ => Response status body.

(** A device that times out on the first request and answers the later ones
    with 200 and [body]. *)
Definition net_slow_start (body : json) : list event -> string -> outcome :=
  fun tr _ =>
    match tr with
    | [] => Timeout
    | _ => Response 200 body
    end.

(** A limits table with one entry, and the envelope it comes in. *)
Definition sample_limits : json :=
  JObj {[ "1280" := JObj {[ "min" := JNum 27; "max" := JNum 68 ]} ]}.

Definition sample_limits_envelope : json :=
  JObj {[ "data" := sample_limits ]}.

(** System parameters without the hardware version. *)
Definition sample_sys_params : json :=
  JObj {[ "uid" := JStr "ABC123"; "controllerID" := JStr "ecoMAX810P-L";
          "softVer" := JStr "3.2.3826" ]}.

(** A network on which the first request times out and the later ones fail
    with another exception. *)
Definition net_then_fails : list event -> string -> outcome :=
  fun tr _ =>
    match tr with
    | [] => Timeout
    | _ => Failed
    end.

(** System parameters with all four identity keys. *)
Definition sample_sys_params_full : json :=
  JObj {[ "uid" := JStr "ABC123"; "controllerID" := JStr "ecoMAX810P-L";
          "softVer" := JStr "3.2.3826"; "routerType" := JStr "ecoNET300" ]}.

(** Tables in the style of [const.py] for two mixers; [camel_to_snake] is
    left as the identity here. *)
Definition sample_sensor_const : SensorConst := {|
  AVAILABLE_NUMBER_OF_MIXERS := 2;
  ENTITY_CATEGORY := {[ "fanPower" := "diagnostic" ]};
  ENTITY_ICON := {[ "boilerPower" := "mdi:gauge" ]};
  ENTITY_PRECISION := {[ "tempCO" := 1 ]};
  ENTITY_SENSOR_DEVICE_CLASS_MAP := {[ "tempCO" := "temperature" ]};
  ENTITY_UNIT_MAP := {[ "tempCO" := "C"; "boilerPower" := "%" ]};
  ENTITY_VALUE_PROCESSOR := ∅;
  SENSOR_MAP_KEY := {[ "_default" := ["boilerPower"; "tempCO"; "fanPower"] ]};
  SENSOR_MIXER_KEY :=
    {[ "1" := ["mixerTemp1"; "mixerSetTemp1"];
       "2" := ["mixerTemp2"; "mixerSetTemp2"] ]};
  STATE_CLASS_MAP := ∅;
  camel_to_snake := fun s => s
|}.

(** Register parameters in which one controller reading and one reading of
    mixer 1 are [None], and mixer 2 has no readings. *)
Definition sample_reg_params : gmap string json :=
  {[ "boilerPower" := JNum 40; "tempCO" := JNull;
     "mixerTemp1" := JNum 35; "mixerSetTemp1" := JNull ]}.

Definition sample_coordinator : Sensor.EconetDataCoordinator :=
  Sensor.mkCoordinator
    (JObj {[ "regParams" := JObj sample_reg_params ]})
    (in_reg sample_reg_params).

(** * Properties *)

(** ** Strings *)

Lemma append_nil (s : string) : "" +:+ s = s.
Proof. reflexivity. Qed.

Lemma append_cons (c : ascii) (s t : string) :
  String c s +:+ t = String c (s +:+ t).
Proof. reflexivity. Qed.

Lemma prefix_nil (s : string) : String.prefix "" s = true.
Proof. destruct s; reflexivity. Qed.

Lemma prefix_app (sub s : string) :
  String.prefix sub s = true <-> exists post, s = sub +:+ post.
Proof.
  revert s. induction sub as [|c sub IH]; intros s.
  - rewrite prefix_nil. split; [eauto | reflexivity].
  - destruct s as [|d s]; simpl.
    + split; [discriminate | intros [post H]; discriminate].
    + destruct (Ascii.ascii_dec c d) as [->|Hne].
      * rewrite IH. split; intros [post H]; exists post.
        -- rewrite append_cons. now rewrite H.
        -- rewrite append_cons in H. now inversion H.
      * split; [discriminate |].
        intros [post H]. rewrite append_cons in H. inversion H. congruence.
Qed.

(** [Py.str_in] is Python's substring test. *)
Lemma str_in_app (sub s : string) :
  Py.str_in sub s = true <-> exists pre post, s = pre +:+ sub +:+ post.
Proof.
  induction s as [|c s IH]; cbn [Py.str_in].
  - rewrite orb_false_r, prefix_app. split.
    + intros [post H]. exists "", post. exact H.
    + intros (pre & post & H). destruct pre.
      * rewrite append_nil in H. eauto.
      * rewrite append_cons in H. discriminate.
  - rewrite orb_true_iff, IH, prefix_app. split.
    + intros [[post H] | (pre & post & H)].
      * exists "", post. exact H.
      * exists (String c pre), post. rewrite append_cons. now rewrite H.
    + intros (pre & post & H). destruct pre as [|d pre].
      * left. rewrite append_nil in H. eauto.
      * right. rewrite append_cons in H. inversion H. eauto.
Qed.

(** ** States *)

Lemma with_trace_id (st : state) : with_trace st (trace st) = st.
Proof. destruct st; reflexivity. Qed.

(** ** The client *)

Section ClientFacts.

Variable net : list event -> string -> outcome.

Lemma _get_loop_unfold (url : string) (attempt : Z) (st : state) :
  EconetClient._get_loop net url attempt st =
  if decide (attempt <= EconetClient.max_attempts) then
    let st1 := with_trace st (trace st ++ [EvGet url]) in
    match net (trace st) url with
    | Response status body =>
        if status =? HTTPStatus.UNAUTHORIZED then (Raise AuthError, st1)
        else if negb (status =? HTTPStatus.OK) then (Ok JNull, st1)
        else (Ok body, st1)
    | Failed => (Raise ClientError, st1)
    | Timeout =>
        EconetClient._get_loop net url (attempt + 1) (snd (sleep 1 st1))
    end
  else (Ok JNull, st).
Proof.
  rewrite EconetClient._get_loop_equation_1.
  destruct (decide (attempt <= EconetClient.max_attempts)); simpl;
    [|reflexivity].
  destruct (net (trace st) url); reflexivity.
Qed.

(** After [n] timeouts in a row that use up the attempts left, the loop
    ends with [None]. *)
Lemma _get_loop_timeouts (url : string) (n : nat) :
  forall (attempt : Z) (st : state),
    attempt = EconetClient.max_attempts + 1 - Z.of_nat n ->
    (forall i, (i < n)%nat -> net (trace st ++ timeouts url i) url = Timeout) ->
    EconetClient._get_loop net url attempt st =
    (Ok JNull, with_trace st (trace st ++ timeouts url n)).
Proof.
  induction n as [|n IH]; intros attempt st Hatt Hto;
    rewrite _get_loop_unfold; unfold EconetClient.max_attempts in *.
  - destruct (decide (attempt <= 5)); [lia|].
    simpl. now rewrite app_nil_r, with_trace_id.
  - destruct (decide (attempt <= 5)); [|lia].
    cbv zeta. pose proof (Hto O ltac:(lia)) as H0.
    simpl in H0. rewrite app_nil_r in H0. rewrite H0.
    rewrite IH; [| lia |].
    + simpl. now rewrite <- !app_assoc.
    + intros i Hi. simpl. rewrite <- !app_assoc. simpl.
      apply (Hto (S i)). lia.
Qed.

(** A call of the loop only extends the trace; when an attempt is left, the
    extension starts with a request of [url]. *)
Lemma _get_loop_frame (url : string) (n : nat) :
  forall (attempt : Z) (st : state),
    n = Z.to_nat (EconetClient.max_attempts + 1 - attempt) ->
    exists evs,
      snd (EconetClient._get_loop net url attempt st)
        = with_trace st (trace st ++ evs) /\
      (attempt <= EconetClient.max_attempts ->
       exists evs', evs = EvGet url :: evs').
Proof.
  induction n as [|n IH]; intros attempt st Hn;
    rewrite _get_loop_unfold; unfold EconetClient.max_attempts in *.
  - destruct (decide (attempt <= 5)); [lia|].
    exists []. simpl. rewrite app_nil_r, with_trace_id. split; [reflexivity|lia].
  - destruct (decide (attempt <= 5)); [|lia]. cbv zeta.
    destruct (net (trace st) url) as [| |status body].
    + destruct (IH (attempt + 1)
                  (snd (sleep 1 (with_trace st (trace st ++ [EvGet url])))))
        as (evs & Hevs & _); [lia|].
      exists (EvGet url :: EvSleep 1 :: evs). rewrite Hevs. simpl.
      rewrite <- !app_assoc. simpl. split; [reflexivity|eauto].
    + exists [EvGet url]. split; [reflexivity|eauto].
    + exists [EvGet url]. split; [|eauto].
      destruct (status =? HTTPStatus.UNAUTHORIZED); [reflexivity|].
      destruct (negb (status =? HTTPStatus.OK)); reflexivity.
Qed.

(** [_get] issues a request of [url] first and touches nothing but the
    trace. *)
Lemma _get_frame (self : EconetClient.t) (url : string) (st : state) :
  exists evs,
    snd (EconetClient._get net self url st)
      = with_trace st (trace st ++ EvGet url :: evs).
Proof.
  destruct (_get_loop_frame url _ 1 st eq_refl) as (evs & H & Hget).
  destruct Hget as [evs' ->]; [unfold EconetClient.max_attempts; lia|].
  exists evs'. exact H.
Qed.

(** C3. If every attempt of a [_get] times out, there are exactly five
    attempts, each followed by a pause of 1, and [_get] returns [None]; it
    does not raise. *)
Theorem get_all_timeouts (self : EconetClient.t) (url : string) (st : state) :
  (forall i, (i < 5)%nat -> net (trace st ++ timeouts url i) url = Timeout) ->
  EconetClient._get net self url st =
    (Ok JNull,
     with_trace st
       (trace st ++
        [EvGet url; EvSleep 1; EvGet url; EvSleep 1; EvGet url; EvSleep 1;
         EvGet url; EvSleep 1; EvGet url; EvSleep 1])) /\
  requests (trace (snd (EconetClient._get net self url st)))
    = (requests (trace st) + 5)%nat.
Proof.
  intros Hto.
  assert (EconetClient._get net self url st =
          (Ok JNull, with_trace st (trace st ++ timeouts url 5))) as H.
  { unfold EconetClient._get. apply _get_loop_timeouts; [reflexivity|exact Hto]. }
  rewrite H. split; [reflexivity|].
  simpl. unfold requests. rewrite List.filter_app, List.length_app.
  reflexivity.
Qed.

(** C4. If the device answers the first attempt of a [_get] with 401,
    [_get] raises [AuthError] right there: one request, no pause, no
    retry. *)
Theorem get_unauthorized (self : EconetClient.t) (url : string) (st : state)
    (body : json) :
  net (trace st) url = Response HTTPStatus.UNAUTHORIZED body ->
  EconetClient._get net self url st =
    (Raise AuthError, with_trace st (trace st ++ [EvGet url])).
Proof.
  intros H. unfold EconetClient._get. rewrite _get_loop_unfold.
  destruct (decide (1 <= EconetClient.max_attempts)) as [_|Hn];
    [|exfalso; apply Hn; unfold EconetClient.max_attempts; lia].
  cbv zeta. rewrite H. reflexivity.
Qed.

End ClientFacts.

Section ClientCalls.

Variable net : list event -> string -> outcome.
Variable self : EconetClient.t.

Lemma client_fetch_sys_params_get (reg : string) (st : state) :
  EconetClient.fetch_sys_params net self reg st =
  EconetClient._get net self (reg_url self reg) st.
Proof.
  unfold EconetClient.fetch_sys_params, bind, ret, reg_url, EconetClient.host.
  destruct (EconetClient._get net self _ st) as [[data|e] st1]; reflexivity.
Qed.

Lemma client_fetch_sys_params_frame (reg : string) (st : state) :
  exists evs,
    snd (EconetClient.fetch_sys_params net self reg st)
      = with_trace st (trace st ++ EvGet (reg_url self reg) :: evs).
Proof. rewrite client_fetch_sys_params_get. apply _get_frame. Qed.

Lemma client_set_param_frame (key value : string) (st : state) :
  exists evs,
    snd (EconetClient.set_param net self key value st)
      = with_trace st (trace st ++ EvGet (write_url self key value) :: evs).
Proof. apply _get_frame. Qed.





(** What [_get] does with a first attempt that is answered. *)
Lemma _get_first_response (url : string) (st : state) (status : Z)
    (body : json) :
  net (trace st) url = Response status body ->
  EconetClient._get net self url st =
    let st1 := with_trace st (trace st ++ [EvGet url]) in
    if status =? HTTPStatus.UNAUTHORIZED then (Raise AuthError, st1)
    else if negb (status =? HTTPStatus.OK) then (Ok JNull, st1)
    else (Ok body, st1).
Proof.
  intros H. unfold EconetClient._get. rewrite _get_loop_unfold.
  destruct (decide (1 <= EconetClient.max_attempts)) as [_|Hn];
    [|exfalso; apply Hn; unfold EconetClient.max_attempts; lia].
  cbv zeta. rewrite H. reflexivity.
Qed.

End ClientCalls.

(** ** Coroutines that keep a relation between the states *)

Section Steps.

Variable R : state -> state -> Prop.
Context `{!PreOrder R}.

Lemma steps_ret {A} (a : A) : steps R (ret a).
Proof. intros st. reflexivity. Qed.

Lemma steps_raise {A} (e : exn) : steps R (@raise A e).
Proof. intros st. reflexivity. Qed.

Lemma steps_lift {A} (r : result A) : steps R (lift r).
Proof. intros st. reflexivity. Qed.

Lemma steps_bind {A B} (m : M A) (k : A -> M B) :
  steps R m -> (forall a, steps R (k a)) -> steps R (bind m k).
Proof.
  intros Hm Hk st. unfold bind. specialize (Hm st).
  destruct (m st) as [[a|e] st1]; simpl in *; [|exact Hm].
  etransitivity; [exact Hm | apply Hk].
Qed.

Lemma steps_try_except {A} (m : M A) (e : exn) (handler : M A) :
  steps R m -> steps R handler -> steps R (try_except m e handler).
Proof.
  intros Hm Hh st. unfold try_except. specialize (Hm st).
  destruct (m st) as [[a|e'] st1]; simpl in *; [exact Hm|].
  destruct (decide (e' = e)); [|exact Hm].
  etransitivity; [exact Hm | apply Hh].
Qed.

End Steps.

#[local] Instance same_cache_preorder : PreOrder same_cache.
Proof.
  split.
  - intros st. reflexivity.
  - intros a b c Hab Hbc. unfold same_cache in *. congruence.
Qed.

#[local] Instance only_trace_preorder : PreOrder only_trace.
Proof.
  split.
  - intros st. exists []. now rewrite app_nil_r, with_trace_id.
  - intros a b c [e1 ->] [e2 ->]. exists (e1 ++ e2)%list.
    simpl. now rewrite app_assoc.
Qed.

Lemma only_trace_same_cache (st st' : state) :
  only_trace st st' -> same_cache st st'.
Proof. intros [evs ->]. reflexivity. Qed.

(** ** The facade *)

Section ApiFacts.

Context {K : Const}.
Variable net : list event -> string -> outcome.
Variable client : EconetClient.t.

(** Closes the three facts about a [set_param] that did not confirm, once the
    call has been evaluated. *)
Ltac not_confirmed :=
  split; [reflexivity|];
  split; [discriminate|];
  first [ intros _; reflexivity
        | intros [H|[? H]]; discriminate H ].

(** [set_param] on a mapped key, by what the client returned. *)
Lemma set_param_some (key value : string) (st st1 : state) (data : json) :
  EconetClient.set_param net client key value st = (Ok data, st1) ->
  (confirmed data = true ->
   Econet300Api.set_param net client (Some key) value st =
     (Ok true, with_cache st1 (MemCache.set (cache st1) key (JStr value)))) /\
  (confirmed data = false ->
   snd (Econet300Api.set_param net client (Some key) value st) = st1 /\
   fst (Econet300Api.set_param net client (Some key) value st) <> Ok true /\
   (envelope data ->
    fst (Econet300Api.set_param net client (Some key) value st) = Ok false)).
Proof.
  intros Hc. unfold Econet300Api.set_param, bind. rewrite Hc.
  unfold confirmed, envelope.
  destruct data as [|b|n|s|l|m]; simpl.
  - split; [discriminate|]. intros _. not_confirmed.
  - split; [discriminate|]. intros _. not_confirmed.
  - split; [discriminate|]. intros _. not_confirmed.
  - split; [discriminate|]. intros _.
    destruct (Py.str_in "result" s); simpl; not_confirmed.
  - split; [discriminate|]. intros _.
    destruct (existsb _ l); simpl; not_confirmed.
  - destruct (m !! "result") as [r|] eqn:Hr; simpl.
    + unfold lift, ret, Econet300Api._cache_set.
      destruct r as [|b|n|s|l|m']; simpl;
        try (split; [discriminate|]; intros _; not_confirmed).
      destruct (String.eqb s "OK"); simpl.
      * split; [reflexivity | discriminate].
      * split; [discriminate|]. intros _. not_confirmed.
    + split; [discriminate|]. intros _. not_confirmed.
Qed.

Lemma set_param_raise (key value : string) (st st1 : state) (e : exn) :
  EconetClient.set_param net client key value st = (Raise e, st1) ->
  Econet300Api.set_param net client (Some key) value st = (Raise e, st1).
Proof.
  intros Hc. unfold Econet300Api.set_param, bind. now rewrite Hc.
Qed.

(** C1. [set_param] with no key returns [False] and leaves the state, the
    trace of requests included, as it was; so it does for a name that
    [map_param] does not map.  With a key, the write is requested from the
    device; [set_param] returns [True] exactly when the client returned a
    response that has a ["result"] equal to ["OK"], returns [False] for any
    other envelope, and after [True] the cache holds the written value under
    the key. *)
Theorem set_param_spec (value : string) (st : state) :
  Econet300Api.set_param net client None value st = (Ok false, st) /\
  (forall name,
     EDITABLE_PARAMS_MAPPING_TABLE !! name = None ->
     Econet300Api.set_param net client (map_param name) value st
       = (Ok false, st)) /\
  forall key,
    let response := EconetClient.set_param net client key value st in
    let returned := Econet300Api.set_param net client (Some key) value st in
    (exists evs,
       trace (snd returned)
         = (trace st ++ EvGet (write_url client key value) :: evs)%list) /\
    (fst returned = Ok true <->
     exists data, fst response = Ok data /\ confirmed data = true) /\
    (forall data,
       fst response = Ok data -> envelope data ->
       fst returned = Ok (confirmed data)) /\
    (fst returned = Ok true ->
     MemCache.exists_ (cache (snd returned)) key = true /\
     MemCache.get (cache (snd returned)) key = Some (JStr value)).
Proof.
  split; [reflexivity|]. split.
  { intros name Hname. unfold map_param. rewrite Hname. reflexivity. }
  intros key response returned. subst response returned.
  destruct (client_set_param_frame net client key value st) as [evs Hevs].
  destruct (EconetClient.set_param net client key value st)
    as [[data|e] st1] eqn:Hc; simpl in Hevs; subst st1.
  - destruct (set_param_some key value st _ data Hc) as [Hyes Hno].
    destruct (confirmed data) eqn:Hconf.
    + rewrite (Hyes eq_refl). simpl. split; [eauto|]. split; [|split].
      * split; [eauto | reflexivity].
      * intros d Hd _. inversion Hd; subst d. now rewrite Hconf.
      * intros _. unfold MemCache.exists_, MemCache.get, MemCache.set.
        now rewrite lookup_insert_eq.
    + destruct (Hno eq_refl) as (Hst & Hne & Henv). rewrite Hst. simpl.
      split; [eauto|]. split; [|split].
      * split; [intros H; contradiction|].
        intros (d & Hd & Hcd). inversion Hd; subst d. congruence.
      * intros d Hd Hed. inversion Hd; subst d. rewrite Hconf. auto.
      * intros H. contradiction.
  - rewrite (set_param_raise key value st _ e Hc). simpl.
    split; [eauto|]. split; [|split].
    + split; [discriminate|]. intros (d & Hd & _). discriminate.
    + intros d Hd. discriminate.
    + discriminate.
Qed.

(** *** Registry reads *)

Lemma _fetch_reg_key_state (reg : string) (data_key : option string)
    (st : state) :
  snd (Econet300Api._fetch_reg_key net client reg data_key st)
    = snd (EconetClient.fetch_sys_params net client reg st).
Proof.
  unfold Econet300Api._fetch_reg_key, bind.
  destruct (EconetClient.fetch_sys_params net client reg st)
    as [[data|e] st1]; [|reflexivity].
  destruct data_key as [key|]; [|destruct data; reflexivity].
  destruct data as [|b|n|s|l|m]; simpl; try reflexivity.
  - destruct (Py.str_in key s); reflexivity.
  - destruct (existsb _ l); reflexivity.
  - destruct (m !! key); reflexivity.
Qed.

Lemma _fetch_reg_key_frame (reg : string) (data_key : option string)
    (st : state) :
  exists evs,
    snd (Econet300Api._fetch_reg_key net client reg data_key st)
      = with_trace st (trace st ++ EvGet (reg_url client reg) :: evs).
Proof.
  rewrite _fetch_reg_key_state. apply client_fetch_sys_params_frame.
Qed.

Lemma _fetch_reg_key_raise (reg : string) (data_key : option string)
    (st st1 : state) (e : exn) :
  EconetClient.fetch_sys_params net client reg st = (Raise e, st1) ->
  Econet300Api._fetch_reg_key net client reg data_key st = (Raise e, st1).
Proof.
  intros Hc. unfold Econet300Api._fetch_reg_key, bind. now rewrite Hc.
Qed.

(** The envelope is missing. *)
Lemma _fetch_reg_key_none (reg : string) (data_key : option string)
    (st st1 : state) :
  EconetClient.fetch_sys_params net client reg st = (Ok JNull, st1) ->
  Econet300Api._fetch_reg_key net client reg data_key st
    = (Raise DataError, st1).
Proof.
  intros Hc. unfold Econet300Api._fetch_reg_key, bind. now rewrite Hc.
Qed.

(** The envelope is an object: the key is unwrapped, or is missing. *)
Lemma _fetch_reg_key_object (reg key : string) (st st1 : state)
    (env : gmap string json) :
  EconetClient.fetch_sys_params net client reg st = (Ok (JObj env), st1) ->
  Econet300Api._fetch_reg_key net client reg (Some key) st
    = (match env !! key with
       | Some v => Ok v
       | None => Raise DataError
       end, st1).
Proof.
  intros Hc. unfold Econet300Api._fetch_reg_key, bind. rewrite Hc. simpl.
  destruct (env !! key); reflexivity.
Qed.

(** [_fetch_reg_names] is [_fetch_reg_key] under another name. *)
Lemma _fetch_reg_names_key (reg : string) (data_key : option string)
    (st : state) :
  Econet300Api._fetch_reg_names net client reg data_key st
    = Econet300Api._fetch_reg_key net client reg data_key st.
Proof.
  unfold Econet300Api._fetch_reg_names, Econet300Api._fetch_reg_key, bind.
  destruct (EconetClient.fetch_sys_params net client reg st)
    as [[data|e] st1]; [|reflexivity].
  destruct data_key as [key|]; [|reflexivity].
  destruct data as [|b|n|s|l|m]; simpl; try reflexivity.
  destruct (m !! key); reflexivity.
Qed.

Lemma fetch_reg_params_key (st : state) :
  Econet300Api.fetch_reg_params net client st
    = Econet300Api._fetch_reg_key net client API_REG_PARAMS_URI
        (Some API_REG_PARAMS_PARAM_DATA) st.
Proof.
  unfold Econet300Api.fetch_reg_params, bind, ret.
  rewrite _fetch_reg_names_key.
  destruct (Econet300Api._fetch_reg_key net client _ _ st) as [[v|e] st1];
    reflexivity.
Qed.

(** [fetch_reg_params_data] is [_fetch_reg_key] with [DataError] turned
    into an empty mapping. *)
Lemma fetch_reg_params_data_key (st : state) :
  Econet300Api.fetch_reg_params_data net client st
    = match Econet300Api._fetch_reg_key net client API_REG_PARAMS_DATA_URI
              (Some API_REG_PARAMS_DATA_PARAM_DATA) st with
      | (Raise DataError, st1) => (Ok (JObj ∅), st1)
      | r => r
      end.
Proof.
  unfold Econet300Api.fetch_reg_params_data, try_except, ret.
  destruct (Econet300Api._fetch_reg_key net client _ _ st) as [[v|e] st1];
    [reflexivity|].
  destruct e; reflexivity.
Qed.

(** A missing envelope or a missing key gives the empty mapping. *)
Lemma fetch_reg_params_data_missing (st st1 : state) (data : json) :
  EconetClient.fetch_sys_params net client API_REG_PARAMS_DATA_URI st
    = (Ok data, st1) ->
  data = JNull \/
  (exists env, data = JObj env /\ env !! API_REG_PARAMS_DATA_PARAM_DATA = None) ->
  Econet300Api.fetch_reg_params_data net client st = (Ok (JObj ∅), st1).
Proof.
  intros Hc Hmiss. rewrite fetch_reg_params_data_key.
  destruct Hmiss as [-> | (env & -> & Hkey)].
  - now rewrite (_fetch_reg_key_none _ _ _ _ Hc).
  - rewrite (_fetch_reg_key_object _ _ _ _ _ Hc), Hkey. reflexivity.
Qed.

(** The key is there: it is unwrapped. *)
Lemma fetch_reg_params_data_present (st st1 : state)
    (env : gmap string json) (v : json) :
  EconetClient.fetch_sys_params net client API_REG_PARAMS_DATA_URI st
    = (Ok (JObj env), st1) ->
  env !! API_REG_PARAMS_DATA_PARAM_DATA = Some v ->
  Econet300Api.fetch_reg_params_data net client st = (Ok v, st1).
Proof.
  intros Hc Hkey. rewrite fetch_reg_params_data_key.
  rewrite (_fetch_reg_key_object _ _ _ _ _ Hc), Hkey. reflexivity.
Qed.

(** *** init *)

Lemma fill_attr_object (key : string) (env : gmap string json)
    (assign : state -> json -> state) (st : state) :
  Econet300Api.fill_attr key (JObj env) assign st
    = (Ok tt, match env !! key with Some v => assign st v | None => st end).
Proof.
  unfold Econet300Api.fill_attr, bind, lift, ret. simpl.
  destruct (env !! key); reflexivity.
Qed.

Lemma fill_attr_steps (R : state -> state -> Prop) `{!PreOrder R}
    (key : string) (data : json) (assign : state -> json -> state) :
  (forall st v, R st (assign st v)) ->
  steps R (Econet300Api.fill_attr key data assign).
Proof.
  intros Hassign. unfold Econet300Api.fill_attr.
  apply steps_bind; [exact _ | apply steps_lift; exact _ |].
  intros present. destruct (negb present); [apply steps_ret; exact _|].
  apply steps_bind; [exact _ | apply steps_lift; exact _ |].
  intros v st. apply Hassign.
Qed.

Lemma client_fetch_sys_params_steps (reg : string) :
  steps only_trace (EconetClient.fetch_sys_params net client reg).
Proof.
  intros st. destruct (client_fetch_sys_params_frame net client reg st)
    as [evs ->]. eexists. reflexivity.
Qed.

Lemma client_set_param_steps (key value : string) :
  steps only_trace (EconetClient.set_param net client key value).
Proof.
  intros st. destruct (client_set_param_frame net client key value st)
    as [evs ->]. eexists. reflexivity.
Qed.

Lemma steps_weaken (R R' : state -> state -> Prop) {A} (m : M A) :
  (forall st st', R st st' -> R' st st') -> steps R m -> steps R' m.
Proof. intros Himp Hm st. apply Himp, Hm. Qed.

Lemma init_same_cache : steps same_cache (Econet300Api.init net client).
Proof.
  unfold Econet300Api.init. apply steps_bind; [exact _ | |].
  - eapply steps_weaken; [apply only_trace_same_cache|].
    apply client_fetch_sys_params_steps.
  - intros data.
    destruct data; try (apply steps_ret; exact _);
      repeat (apply steps_bind; [exact _ | | intros _]);
      apply fill_attr_steps; try exact _; intros st v; reflexivity.
Qed.

(** No data: nothing is assigned. *)
Lemma init_none (st st1 : state) :
  EconetClient.fetch_sys_params net client API_SYS_PARAMS_URI st
    = (Ok JNull, st1) ->
  Econet300Api.init net client st = (Ok tt, st1).
Proof.
  intros Hc. unfold Econet300Api.init, bind. now rewrite Hc.
Qed.

(** An object: each attribute whose key is there is assigned, in the order
    of the four blocks. *)
Lemma init_object (st st1 : state) (env : gmap string json) :
  EconetClient.fetch_sys_params net client API_SYS_PARAMS_URI st
    = (Ok (JObj env), st1) ->
  Econet300Api.init net client st =
    (Ok tt,
     let s1 := match env !! API_SYS_PARAMS_PARAM_UID with
               | Some v => with_uid st1 v | None => st1 end in
     let s2 := match env !! API_SYS_PARAMS_PARAM_MODEL_ID with
               | Some v => with_model_id s1 v | None => s1 end in
     let s3 := match env !! API_SYS_PARAMS_PARAM_SW_REV with
               | Some v => with_sw_revision s2 v | None => s2 end in
     match env !! API_SYS_PARAMS_PARAM_HW_VER with
     | Some v => with_hw_version s3 v | None => s3 end).
Proof.
  intros Hc. unfold Econet300Api.init, bind. rewrite Hc.
  now rewrite !fill_attr_object.
Qed.

Lemma init_raise (st st1 : state) (e : exn) :
  EconetClient.fetch_sys_params net client API_SYS_PARAMS_URI st
    = (Raise e, st1) ->
  Econet300Api.init net client st = (Raise e, st1).
Proof.
  intros Hc. unfold Econet300Api.init, bind. now rewrite Hc.
Qed.

(** *** get_param_limits *)

(** The look-up changes nothing and raises nothing but [TypeError] and
    [KeyError]. *)
Lemma limits_entry_state (param : option string) (limits : json)
    (st : state) :
  snd (limits_entry param limits st) = st.
Proof.
  unfold limits_entry. destruct param as [param|]; [|reflexivity].
  unfold bind, lift, ret.
  destruct (Py.contains param limits) as [[|]|]; simpl; try reflexivity.
  destruct (Py.getitem limits param) as [curr|]; simpl; [|reflexivity].
  destruct (Py.getitem curr "min"); simpl; [|reflexivity].
  destruct (Py.getitem curr "max"); reflexivity.
Qed.




(** With the table in the cache, [get_param_limits] is the look-up in it. *)
Lemma get_param_limits_cached (param : option string) (limits : json)
    (st : state) :
  MemCache.get (cache st) API_EDITABLE_PARAMS_LIMITS_DATA = Some limits ->
  Econet300Api.get_param_limits net client param st
    = limits_entry param limits st.
Proof.
  intros Hget.
  unfold Econet300Api.get_param_limits, Econet300Api._cache_exists.
  unfold bind at 1. unfold MemCache.exists_, MemCache.get in *.
  rewrite Hget. simpl negb. cbv iota.
  unfold bind at 1. unfold ret at 1. unfold bind at 1.
  unfold Econet300Api._cache_get, MemCache.get. rewrite Hget.
  destruct param; reflexivity.
Qed.

(** Once the table is cached, [get_param_limits] and
    [fetch_param_edit_data] change nothing, whatever they return. *)
Lemma get_param_limits_warm (param : option string) (st : state) :
  MemCache.exists_ (cache st) API_EDITABLE_PARAMS_LIMITS_DATA = true ->
  snd (Econet300Api.get_param_limits net client param st) = st.
Proof.
  intros Hwarm. unfold MemCache.exists_ in Hwarm.
  destruct (cache st !! API_EDITABLE_PARAMS_LIMITS_DATA) as [limits|] eqn:Hget;
    [|discriminate].
  rewrite (get_param_limits_cached param limits st Hget).
  apply limits_entry_state.
Qed.

Lemma fetch_param_edit_data_warm (st : state) :
  MemCache.exists_ (cache st) API_EDITABLE_PARAMS_LIMITS_DATA = true ->
  snd (Econet300Api.fetch_param_edit_data net client st) = st.
Proof.
  intros Hwarm.
  unfold Econet300Api.fetch_param_edit_data, bind,
    Econet300Api._cache_exists, Econet300Api._cache_get.
  rewrite Hwarm. simpl. unfold MemCache.exists_, MemCache.get in *.
  destruct (cache st !! API_EDITABLE_PARAMS_LIMITS_DATA); [reflexivity|].
  discriminate.
Qed.

(** On a cold cache the table is fetched first; when the fetch returns it,
    it is stored and looked up. *)
Lemma get_param_limits_cold (param : option string) (st : state) :
  MemCache.exists_ (cache st) API_EDITABLE_PARAMS_LIMITS_DATA = false ->
  Econet300Api.get_param_limits net client param st =
  match Econet300Api._fetch_reg_key net client API_EDITABLE_PARAMS_LIMITS_URI
          (Some API_EDITABLE_PARAMS_LIMITS_DATA) st with
  | (Raise e, st1) => (Raise e, st1)
  | (Ok limits, st1) =>
      limits_entry param limits
        (with_cache st1
           (MemCache.set (cache st1) API_EDITABLE_PARAMS_LIMITS_DATA limits))
  end.
Proof.
  intros Hcold.
  unfold Econet300Api.get_param_limits, Econet300Api._cache_exists.
  unfold bind at 1. rewrite Hcold. simpl negb. cbv iota.
  unfold bind at 1. unfold bind at 1.
  destruct (Econet300Api._fetch_reg_key net client _ _ st)
    as [[limits|e] st1]; [|reflexivity].
  unfold Econet300Api._cache_set at 1. unfold bind at 1.
  unfold Econet300Api._cache_get, MemCache.get, MemCache.set. simpl cache.
  rewrite lookup_insert_eq. destruct param; reflexivity.
Qed.

Lemma fetch_param_edit_data_cold (st : state) :
  MemCache.exists_ (cache st) API_EDITABLE_PARAMS_LIMITS_DATA = false ->
  Econet300Api.fetch_param_edit_data net client st =
  match Econet300Api._fetch_reg_key net client API_EDITABLE_PARAMS_LIMITS_URI
          (Some API_EDITABLE_PARAMS_LIMITS_DATA) st with
  | (Raise e, st1) => (Raise e, st1)
  | (Ok limits, st1) =>
      (Ok limits,
       with_cache st1
         (MemCache.set (cache st1) API_EDITABLE_PARAMS_LIMITS_DATA limits))
  end.
Proof.
  intros Hcold.
  unfold Econet300Api.fetch_param_edit_data, Econet300Api._cache_exists.
  unfold bind at 1. rewrite Hcold. simpl negb. cbv iota.
  unfold bind at 1. unfold bind at 1.
  destruct (Econet300Api._fetch_reg_key net client _ _ st)
    as [[limits|e] st1]; [|reflexivity].
  unfold Econet300Api._cache_set at 1.
  unfold Econet300Api._cache_get, MemCache.get, MemCache.set. simpl cache.
  now rewrite lookup_insert_eq.
Qed.

Lemma get_param_limits_cold_state (param : option string) (st : state) :
  MemCache.exists_ (cache st) API_EDITABLE_PARAMS_LIMITS_DATA = false ->
  snd (Econet300Api.get_param_limits net client param st) =
  match Econet300Api._fetch_reg_key net client API_EDITABLE_PARAMS_LIMITS_URI
          (Some API_EDITABLE_PARAMS_LIMITS_DATA) st with
  | (Raise e, st1) => st1
  | (Ok limits, st1) =>
      with_cache st1
        (MemCache.set (cache st1) API_EDITABLE_PARAMS_LIMITS_DATA limits)
  end.
Proof.
  intros Hcold. rewrite (get_param_limits_cold param st Hcold).
  destruct (Econet300Api._fetch_reg_key net client _ _ st)
    as [[limits|e] st1]; [|reflexivity].
  apply limits_entry_state.
Qed.

(** *** Every operation and the cache *)

Lemma bind_ret_snd {A B} (m : M A) (f : A -> B) (st : state) :
  snd ((x <- m ;; ret (f x)) st) = snd (m st).
Proof. unfold bind, ret. destruct (m st) as [[a|e] st1]; reflexivity. Qed.

Lemma bind_ret_fst {A B} (m : M A) (f : A -> B) (st : state) :
  fst ((x <- m ;; ret (f x)) st) =
  match fst (m st) with Ok a => Ok (f a) | Raise e => Raise e end.
Proof. unfold bind, ret. destruct (m st) as [[a|e] st1]; reflexivity. Qed.

Lemma _fetch_reg_key_same_cache (reg : string) (data_key : option string)
    (st : state) :
  cache (snd (Econet300Api._fetch_reg_key net client reg data_key st))
    = cache st.
Proof.
  destruct (_fetch_reg_key_frame reg data_key st) as [evs ->]. reflexivity.
Qed.

(** What a call of the facade can do to the cache: nothing; or, for a
    [set_param] that returns [True] on a confirmed write, store the written
    value; or, for the two reads of the limits on a cold cache, store the
    fetched table. *)
Lemma call_cache (o : op) (st : state) :
  cache (snd (call net client o st)) = cache st \/
  (exists key value data,
     o = SetParam (Some key) value /\
     fst (call net client o st) = Ok (RBool true) /\
     fst (EconetClient.set_param net client key value st) = Ok data /\
     confirmed data = true /\
     cache (snd (call net client o st))
       = MemCache.set (cache st) key (JStr value)) \/
  (((exists param, o = GetParamLimits param) \/ o = FetchParamEditData) /\
   MemCache.exists_ (cache st) API_EDITABLE_PARAMS_LIMITS_DATA = false /\
   exists limits,
     fst (Econet300Api._fetch_reg_key net client
            API_EDITABLE_PARAMS_LIMITS_URI
            (Some API_EDITABLE_PARAMS_LIMITS_DATA) st) = Ok limits /\
     cache (snd (call net client o st))
       = MemCache.set (cache st) API_EDITABLE_PARAMS_LIMITS_DATA limits).
Proof.
  destruct o as [|param value|param| | | |]; unfold call.
  - left. rewrite bind_ret_snd. apply init_same_cache.
  - destruct param as [key|]; [|left; reflexivity].
    rewrite bind_ret_snd, bind_ret_fst.
    pose proof (client_set_param_steps key value st) as [evs Hevs].
    destruct (EconetClient.set_param net client key value st)
      as [[data|e] st1] eqn:Hc; simpl in Hevs; subst st1.
    + destruct (set_param_some key value st _ data Hc) as [Hyes Hno].
      destruct (confirmed data) eqn:Hconf.
      * right; left. exists key, value, data.
        rewrite (Hyes eq_refl), Hc. simpl. auto.
      * left. destruct (Hno eq_refl) as (-> & _). reflexivity.
    + left. now rewrite (set_param_raise key value st _ e Hc).
  - rewrite bind_ret_snd.
    destruct (MemCache.exists_ (cache st) API_EDITABLE_PARAMS_LIMITS_DATA)
      eqn:Hex.
    + left. now rewrite get_param_limits_warm.
    + rewrite (get_param_limits_cold_state param st Hex).
      pose proof (_fetch_reg_key_same_cache API_EDITABLE_PARAMS_LIMITS_URI
                    (Some API_EDITABLE_PARAMS_LIMITS_DATA) st) as Hsame.
      destruct (Econet300Api._fetch_reg_key net client _ _ st)
        as [[limits|e] st1]; simpl in Hsame.
      * right; right. split; [eauto|]. split; [reflexivity|].
        exists limits. simpl. now rewrite Hsame.
      * left. exact Hsame.
  - left. rewrite bind_ret_snd, fetch_reg_params_data_key.
    pose proof (_fetch_reg_key_same_cache API_REG_PARAMS_DATA_URI
                  (Some API_REG_PARAMS_DATA_PARAM_DATA) st) as Hsame.
    destruct (Econet300Api._fetch_reg_key net client _ _ st)
      as [[v|e] st1]; simpl in Hsame; [exact Hsame|].
    destruct e; exact Hsame.
  - rewrite bind_ret_snd.
    destruct (MemCache.exists_ (cache st) API_EDITABLE_PARAMS_LIMITS_DATA)
      eqn:Hex.
    + left. now rewrite fetch_param_edit_data_warm.
    + rewrite (fetch_param_edit_data_cold st Hex).
      pose proof (_fetch_reg_key_same_cache API_EDITABLE_PARAMS_LIMITS_URI
                    (Some API_EDITABLE_PARAMS_LIMITS_DATA) st) as Hsame.
      destruct (Econet300Api._fetch_reg_key net client _ _ st)
        as [[limits|e] st1]; simpl in Hsame.
      * right; right. split; [auto|]. split; [reflexivity|].
        exists limits. simpl. now rewrite Hsame.
      * left. exact Hsame.
  - left. rewrite bind_ret_snd. unfold Econet300Api.fetch_sys_params.
    apply only_trace_same_cache, client_fetch_sys_params_steps.
  - left. rewrite bind_ret_snd, fetch_reg_params_key.
    apply _fetch_reg_key_same_cache.
Qed.

(** No call removes an entry of the cache. *)
Lemma call_exists (o : op) (st : state) (key : string) :
  MemCache.exists_ (cache st) key = true ->
  MemCache.exists_ (cache (snd (call net client o st))) key = true.
Proof.
  intros Hex.
  destruct (call_cache o st)
    as [-> | [(k & v & d & _ & _ & _ & _ & ->) | (_ & _ & l & _ & ->)]];
    [exact Hex | |];
    unfold MemCache.exists_, MemCache.set in *;
    rewrite lookup_insert; case_decide; auto.
Qed.

Lemma run_exists (ops : list op) (st : state) (key : string) :
  MemCache.exists_ (cache st) key = true ->
  MemCache.exists_ (cache (run net client ops st)) key = true.
Proof.
  revert st. induction ops as [|o ops IH]; intros st Hex; [exact Hex|].
  simpl. apply IH, call_exists, Hex.
Qed.

(** *** The cache *)

(** C2. The cache and confirmed writes.  A [set_param] that does not return
    [True] leaves the cache as it was.  One that returns [True] had a
    response whose ["result"] is ["OK"], and stores the written value and
    nothing else.  Over all operations of the facade: an entry of the cache
    changes only in such a [set_param] of its key, or, for the key of the
    limits table, in a read of the limits on a cold cache. *)
Theorem cache_only_after_confirmed_write :
  (forall param value st,
     fst (Econet300Api.set_param net client param value st) <> Ok true ->
     cache (snd (Econet300Api.set_param net client param value st))
       = cache st) /\
  (forall key value st,
     fst (Econet300Api.set_param net client (Some key) value st) = Ok true ->
     (exists data,
        fst (EconetClient.set_param net client key value st) = Ok data /\
        confirmed data = true) /\
     cache (snd (Econet300Api.set_param net client (Some key) value st))
       = MemCache.set (cache st) key (JStr value)) /\
  (forall o st key,
     cache (snd (call net client o st)) !! key <> cache st !! key ->
     (exists value data,
        o = SetParam (Some key) value /\
        fst (call net client o st) = Ok (RBool true) /\
        fst (EconetClient.set_param net client key value st) = Ok data /\
        confirmed data = true /\
        cache (snd (call net client o st)) !! key = Some (JStr value)) \/
     (key = API_EDITABLE_PARAMS_LIMITS_DATA /\
      ((exists param, o = GetParamLimits param) \/ o = FetchParamEditData) /\
      MemCache.exists_ (cache st) API_EDITABLE_PARAMS_LIMITS_DATA = false)).
Proof.
  split; [|split].
  - intros param value st Hne.
    destruct (call_cache (SetParam param value) st)
      as [H | [(k & v & d & _ & Htrue & _) | ([[p Hp] | Hp] & _)]];
      try discriminate Hp.
    + unfold call in H. now rewrite bind_ret_snd in H.
    + unfold call in Htrue. rewrite bind_ret_fst in Htrue.
      destruct (fst (Econet300Api.set_param net client param value st))
        as [[|]|]; [contradiction|discriminate|discriminate].
  - intros key value st Htrue.
    destruct (EconetClient.set_param net client key value st)
      as [[data|e] st1] eqn:Hc.
    + pose proof (client_set_param_steps key value st) as [evs Hevs].
      rewrite Hc in Hevs. simpl in Hevs. subst st1.
      destruct (set_param_some key value st _ data Hc) as [Hyes Hno].
      destruct (confirmed data) eqn:Hconf.
      * split; [eauto|]. now rewrite (Hyes eq_refl).
      * destruct (Hno eq_refl) as (_ & Hne & _). contradiction.
    + rewrite (set_param_raise key value st _ e Hc) in Htrue. discriminate.
  - intros o st key Hdiff.
    destruct (call_cache o st)
      as [H | [(k & v & d & -> & Htrue & Hd & Hconf & Hcache)
              | (Ho & Hcold & l & _ & Hcache)]].
    + rewrite H in Hdiff. contradiction.
    + unfold MemCache.set in Hcache.
      destruct (decide (k = key)) as [->|Hne].
      * left. exists v, d. rewrite Hcache, lookup_insert_eq. auto.
      * rewrite Hcache, lookup_insert_ne in Hdiff by exact Hne.
        contradiction.
    + unfold MemCache.set in Hcache.
      destruct (decide (API_EDITABLE_PARAMS_LIMITS_DATA = key)) as [<-|Hne].
      * right. auto.
      * rewrite Hcache, lookup_insert_ne in Hdiff by exact Hne.
        contradiction.
Qed.

(** C5. On a cold cache, when the fetch of the limits table returns it, a
    [get_param_limits] does that one fetch and nothing else on the network,
    and stores the table.  It returns [None] without a key and for a key that
    is not in the table, and the pair of ["min"] and ["max"] of the entry of
    a key that is.  After that, whatever the facade is called to do, no
    [get_param_limits] requests anything: it leaves the state as it is.
    When the device answers the first request of the fetch with 200, the
    fetch is a single request. *)
Theorem get_param_limits_lazy (st st1 : state) (table : json)
    (param : option string) :
  MemCache.exists_ (cache st) API_EDITABLE_PARAMS_LIMITS_DATA = false ->
  Econet300Api._fetch_reg_key net client API_EDITABLE_PARAMS_LIMITS_URI
    (Some API_EDITABLE_PARAMS_LIMITS_DATA) st = (Ok table, st1) ->
  let returned := fst (Econet300Api.get_param_limits net client param st) in
  let after := snd (Econet300Api.get_param_limits net client param st) in
  after
    = with_cache st1
        (MemCache.set (cache st) API_EDITABLE_PARAMS_LIMITS_DATA table) /\
  (param = None -> returned = Ok None) /\
  (forall key entries,
     param = Some key -> table = JObj entries ->
     match entries !! key with
     | None => returned = Ok None
     | Some entry =>
         forall fields min_v max_v,
           entry = JObj fields ->
           fields !! "min" = Some min_v ->
           fields !! "max" = Some max_v ->
           returned = Ok (Some (Limits.mk min_v max_v))
     end) /\
  (forall ops param',
     let later := run net client ops after in
     snd (Econet300Api.get_param_limits net client param' later) = later) /\
  (forall body,
     net (trace st) (reg_url client API_EDITABLE_PARAMS_LIMITS_URI)
       = Response HTTPStatus.OK body ->
     trace after
       = (trace st
            ++ [EvGet (reg_url client API_EDITABLE_PARAMS_LIMITS_URI)])%list).
Proof.
  intros Hcold Hfetch returned after. subst returned after.
  pose proof (_fetch_reg_key_state API_EDITABLE_PARAMS_LIMITS_URI
                (Some API_EDITABLE_PARAMS_LIMITS_DATA) st) as Hstate.
  pose proof (_fetch_reg_key_same_cache API_EDITABLE_PARAMS_LIMITS_URI
                (Some API_EDITABLE_PARAMS_LIMITS_DATA) st) as Hsame.
  rewrite (get_param_limits_cold param st Hcold).
  rewrite Hfetch in *. simpl in Hsame. rewrite Hsame.
  rewrite limits_entry_state.
  split; [reflexivity|]. split; [|split; [|split]].
  - intros ->. reflexivity.
  - intros key entries -> ->. unfold limits_entry, bind, lift, ret. simpl.
    destruct (entries !! key) as [entry|]; [|reflexivity].
    intros fields min_v max_v -> Hmin Hmax. simpl.
    now rewrite Hmin, Hmax.
  - intros ops param' later. apply get_param_limits_warm.
    apply run_exists. unfold MemCache.exists_, MemCache.set. simpl.
    now rewrite lookup_insert_eq.
  - intros body Hbody. simpl in Hstate. subst st1.
    rewrite client_fetch_sys_params_get.
    now rewrite (_get_first_response net client _ _ _ _ Hbody).
Qed.

(** C10. On a cold cache, [get_param_limits] without a key still starts
    with the fetch of the limits table: the request goes out, and when the
    fetch returns the table it is stored before [None] is returned.
    [set_param] without a key returns before any request. *)
Theorem get_param_limits_no_key_fetches (st : state) (value : string) :
  MemCache.exists_ (cache st) API_EDITABLE_PARAMS_LIMITS_DATA = false ->
  Econet300Api.get_param_limits net client None st =
    match Econet300Api._fetch_reg_key net client
            API_EDITABLE_PARAMS_LIMITS_URI
            (Some API_EDITABLE_PARAMS_LIMITS_DATA) st with
    | (Ok table, st1) =>
        (Ok None,
         with_cache st1
           (MemCache.set (cache st1) API_EDITABLE_PARAMS_LIMITS_DATA table))
    | (Raise e, st1) => (Raise e, st1)
    end /\
  (exists evs,
     trace (snd (Econet300Api.get_param_limits net client None st))
       = (trace st
            ++ EvGet (reg_url client API_EDITABLE_PARAMS_LIMITS_URI) :: evs)%list) /\
  Econet300Api.set_param net client None value st = (Ok false, st).
Proof.
  intros Hcold. split; [|split; [|reflexivity]].
  - rewrite (get_param_limits_cold None st Hcold).
    destruct (Econet300Api._fetch_reg_key net client _ _ st)
      as [[table|e] st1]; reflexivity.
  - rewrite (get_param_limits_cold_state None st Hcold).
    destruct (_fetch_reg_key_frame API_EDITABLE_PARAMS_LIMITS_URI
                (Some API_EDITABLE_PARAMS_LIMITS_DATA) st) as [evs Hevs].
    exists evs.
    destruct (Econet300Api._fetch_reg_key net client _ _ st)
      as [[table|e] st1]; simpl in Hevs; subst st1; reflexivity.
Qed.

(** *** init and the three registry reads *)

(** C8. When the fetch of the system parameters returns no data, [init]
    assigns nothing: the four identity attributes are what they were.  When
    it returns an object without the hardware version, the hardware version
    is what it was, and each of the other three attributes is the value of
    its key in the object when the key is there and what it was when not.
    On a new object "what it was" is the placeholder string. *)
Theorem init_identity (st st1 : state) (sys_params : json) :
  EconetClient.fetch_sys_params net client API_SYS_PARAMS_URI st
    = (Ok sys_params, st1) ->
  let st' := snd (Econet300Api.init net client st) in
  (sys_params = JNull ->
   Econet300Api.init net client st = (Ok tt, st1) /\
   Econet300Api.uid st' = Econet300Api.uid st /\
   Econet300Api.model_id st' = Econet300Api.model_id st /\
   Econet300Api.sw_rev st' = Econet300Api.sw_rev st /\
   Econet300Api.hw_ver st' = Econet300Api.hw_ver st) /\
  (forall env,
     sys_params = JObj env ->
     env !! API_SYS_PARAMS_PARAM_HW_VER = None ->
     fst (Econet300Api.init net client st) = Ok tt /\
     Econet300Api.hw_ver st' = Econet300Api.hw_ver st /\
     Econet300Api.uid st'
       = default (Econet300Api.uid st) (env !! API_SYS_PARAMS_PARAM_UID) /\
     Econet300Api.model_id st'
       = default (Econet300Api.model_id st)
           (env !! API_SYS_PARAMS_PARAM_MODEL_ID) /\
     Econet300Api.sw_rev st'
       = default (Econet300Api.sw_rev st)
           (env !! API_SYS_PARAMS_PARAM_SW_REV)) /\
  (forall cache tr,
     st = Econet300Api.__init__ cache tr ->
     Econet300Api.uid st = JStr "default-uid" /\
     Econet300Api.model_id st = JStr "default-model-id" /\
     Econet300Api.sw_rev st = JStr "default-sw-revision" /\
     Econet300Api.hw_ver st = JStr "default-hw-version").
Proof.
  intros Hc st'. subst st'.
  pose proof (client_fetch_sys_params_steps API_SYS_PARAMS_URI st)
    as [evs Hevs].
  rewrite Hc in Hevs. simpl in Hevs. subst st1.
  split; [|split].
  - intros ->. rewrite (init_none _ _ Hc). auto.
  - intros env -> Hhw. rewrite (init_object _ _ _ Hc), Hhw.
    unfold Econet300Api.uid, Econet300Api.model_id, Econet300Api.sw_rev,
      Econet300Api.hw_ver.
    destruct (env !! API_SYS_PARAMS_PARAM_UID),
      (env !! API_SYS_PARAMS_PARAM_MODEL_ID),
      (env !! API_SYS_PARAMS_PARAM_SW_REV); simpl; auto.
  - intros c tr ->. auto.
Qed.

Lemma _get_loop_raises (url : string) (n : nat) :
  forall (attempt : Z) (st : state) (e : exn),
    n = Z.to_nat (EconetClient.max_attempts + 1 - attempt) ->
    fst (EconetClient._get_loop net url attempt st) = Raise e ->
    e = AuthError \/ e = ClientError.
Proof.
  induction n as [|n IH]; intros attempt st e Hn;
    rewrite _get_loop_unfold; unfold EconetClient.max_attempts in *.
  - destruct (decide (attempt <= 5)); [lia|]. discriminate.
  - destruct (decide (attempt <= 5)); [|lia]. cbv zeta.
    destruct (net (trace st) url) as [| |status body].
    + apply IH. lia.
    + intros [= <-]. auto.
    + destruct (status =? HTTPStatus.UNAUTHORIZED); [intros [= <-]; auto|].
      destruct (negb (status =? HTTPStatus.OK)); discriminate.
Qed.

Lemma client_fetch_sys_params_raises (reg : string) (st : state) (e : exn) :
  fst (EconetClient.fetch_sys_params net client reg st) = Raise e ->
  e = AuthError \/ e = ClientError.
Proof.
  rewrite client_fetch_sys_params_get. unfold EconetClient._get.
  eapply _get_loop_raises. reflexivity.
Qed.

(** C6, as the code has it.  [fetch_reg_params] unwraps its key from the
    envelope and raises [DataError] when the envelope is missing or the key
    is not in it.  [fetch_reg_params_data] unwraps its key too, but returns
    an empty mapping in those two cases.  [fetch_sys_params] returns what the
    client returned, the envelope as a whole or [None], and never raises
    [DataError]. *)
Theorem registry_reads (st st1 : state) (data : json) :
  (EconetClient.fetch_sys_params net client API_REG_PARAMS_URI st
     = (Ok data, st1) ->
   (data = JNull ->
    Econet300Api.fetch_reg_params net client st = (Raise DataError, st1)) /\
   (forall env,
      data = JObj env ->
      Econet300Api.fetch_reg_params net client st =
        (match env !! API_REG_PARAMS_PARAM_DATA with
         | Some v => Ok v
         | None => Raise DataError
         end, st1))) /\
  (EconetClient.fetch_sys_params net client API_REG_PARAMS_DATA_URI st
     = (Ok data, st1) ->
   (data = JNull ->
    Econet300Api.fetch_reg_params_data net client st
      = (Ok (JObj ∅), st1)) /\
   (forall env,
      data = JObj env ->
      Econet300Api.fetch_reg_params_data net client st =
        (match env !! API_REG_PARAMS_DATA_PARAM_DATA with
         | Some v => Ok v
         | None => Ok (JObj ∅)
         end, st1))) /\
  (EconetClient.fetch_sys_params net client API_SYS_PARAMS_URI st
     = (Ok data, st1) ->
   Econet300Api.fetch_sys_params net client st = (Ok data, st1)) /\
  fst (Econet300Api.fetch_sys_params net client st) <> Raise DataError.
Proof.
  split; [|split; [|split]].
  - intros Hc. split.
    + intros ->. rewrite fetch_reg_params_key.
      now apply _fetch_reg_key_none.
    + intros env ->. rewrite fetch_reg_params_key.
      now apply _fetch_reg_key_object.
  - intros Hc. split.
    + intros ->. apply (fetch_reg_params_data_missing _ _ _ Hc). now left.
    + intros env ->.
      destruct (env !! API_REG_PARAMS_DATA_PARAM_DATA) as [v|] eqn:Hkey.
      * now apply (fetch_reg_params_data_present _ _ _ _ Hc).
      * apply (fetch_reg_params_data_missing _ _ _ Hc). right. eauto.
  - intros Hc. exact Hc.
  - intros Hraise.
    apply client_fetch_sys_params_raises in Hraise.
    destruct Hraise; discriminate.
Qed.

(** *** What escapes from the facade *)











End ApiFacts.

(** ** The host of the client *)

(** C9, as the code has it.  The constructor looks for ["http://"] and
    ["https://"] anywhere in the host: a host that contains one of the two is
    stored unchanged, a host that contains neither is stored with
    ["http://"] in front. *)
Theorem host_scheme_default (host username password : string) :
  let stored :=
    EconetClient.host (EconetClient.__init__ host username password) in
  ((exists pre post, host = pre +:+ "http://" +:+ post) \/
   (exists pre post, host = pre +:+ "https://" +:+ post) ->
   stored = host) /\
  (~ (exists pre post, host = pre +:+ "http://" +:+ post) ->
   ~ (exists pre post, host = pre +:+ "https://" +:+ post) ->
   stored = "http://" +:+ host).
Proof.
  unfold EconetClient.host, EconetClient.__init__, EconetClient.proto.
  cbn [forallb EconetClient._host]. rewrite andb_true_r.
  destruct (Py.str_in "http://" host) eqn:Hhttp;
    destruct (Py.str_in "https://" host) eqn:Hhttps; simpl; split;
    try (intros _; reflexivity).
  all: try (intros Hn1 Hn2; exfalso;
            first [ apply Hn1; now apply str_in_app
                  | apply Hn2; now apply str_in_app ]).
  intros [H | H]; apply str_in_app in H; congruence.
Qed.

(** C9 fails as stated.  A host with the scheme in capitals has a scheme and
    is stored changed; a host without a scheme that has ["http://"] further
    on is stored as it is, without a scheme in front. *)
Lemma host_scheme_counterexample :
  (supplied_scheme "HTTP://192.168.1.10" = true /\
   EconetClient.host (EconetClient.__init__ "HTTP://192.168.1.10" "admin" "secret")
     = "http://HTTP://192.168.1.10" /\
   EconetClient.host (EconetClient.__init__ "HTTP://192.168.1.10" "admin" "secret")
     <> "HTTP://192.168.1.10") /\
  (supplied_scheme "boiler.local/?next=http://x" = false /\
   EconetClient.host
     (EconetClient.__init__ "boiler.local/?next=http://x" "admin" "secret")
     = "boiler.local/?next=http://x" /\
   EconetClient.host
     (EconetClient.__init__ "boiler.local/?next=http://x" "admin" "secret")
     <> "http://" +:+ "boiler.local/?next=http://x").
Proof.
  repeat split; try reflexivity; vm_compute; discriminate.
Qed.

Lemma host_scheme_default_witness :
  EconetClient.host (EconetClient.__init__ "https://boiler.local" "admin" "secret")
    = "https://boiler.local" /\
  EconetClient.host (EconetClient.__init__ "192.168.1.10" "admin" "secret")
    = "http://192.168.1.10".
Proof.
  split.
  - apply (host_scheme_default "https://boiler.local" "admin" "secret").
    right. exists "", "boiler.local". reflexivity.
  - apply (host_scheme_default "192.168.1.10" "admin" "secret");
      intros H; apply str_in_app in H; vm_compute in H; discriminate H.
Defined.

(** ** The theorems at sample worlds *)

(** One timeout, then an answer: [_get] pauses once and returns the body. *)
Example get_after_one_timeout :
  EconetClient._get (net_slow_start (JObj {[ "uid" := JStr "ABC123" ]}))
    sample_client "http://boiler.local/econet/sysParams" fresh
  = (Ok (JObj {[ "uid" := JStr "ABC123" ]}),
     with_trace fresh
       [EvGet "http://boiler.local/econet/sysParams"; EvSleep 1;
        EvGet "http://boiler.local/econet/sysParams"]).
Proof. vm_compute. reflexivity. Qed.

(** When the fetch of the limits fails, [get_param_limits] raises, nothing
    is stored, and the next call requests the table again. *)
Example get_param_limits_fetch_fails :
  let first :=
    Econet300Api.get_param_limits (K := sample_const) (net_always 500 JNull)
      sample_client (Some "1280") fresh in
  let second :=
    Econet300Api.get_param_limits (K := sample_const) (net_always 500 JNull)
      sample_client (Some "1280") (snd first) in
  fst first = Raise DataError /\
  cache (snd first) = ∅ /\
  requests (trace (snd first)) = 1%nat /\
  requests (trace (snd second)) = 2%nat.
Proof. vm_compute. auto. Qed.

(** A write the device does not confirm: [False], and the cache stays as it
    was. *)
Example set_param_not_confirmed :
  Econet300Api.set_param
    (net_always 200 (JObj {[ "result" := JStr "ERROR" ]})) sample_client
    (Some "1280") "60" fresh
  = (Ok false,
     with_trace fresh
       [EvGet "http://boiler.local/econet/rmCurrNewParam?newParamKey=1280&newParamValue=60"]).
Proof. vm_compute. reflexivity. Qed.

(** [make_api] on a device that answers 500: the placeholders stay. *)
Example make_api_no_data :
  make_api (H := sample_const) (net_always 500 JNull) ∅
    "boiler.local" "admin" "secret" []
  = (Ok tt,
     with_trace fresh [EvGet "http://boiler.local/econet/sysParams"]).
Proof. vm_compute. reflexivity. Qed.

(** The device confirms every write. *)
Lemma set_param_spec_witness :
  Econet300Api.set_param
    (net_always 200 (JObj {[ "result" := JStr "OK" ]})) sample_client
    (Some "1280") "60" fresh
  = (Ok true,
     with_cache
       (with_trace fresh
          [EvGet "http://boiler.local/econet/rmCurrNewParam?newParamKey=1280&newParamValue=60"])
       {[ "1280" := JStr "60" ]}) /\
  MemCache.get
    (cache (snd (Econet300Api.set_param
                   (net_always 200 (JObj {[ "result" := JStr "OK" ]}))
                   sample_client (Some "1280") "60" fresh))) "1280"
  = Some (JStr "60") /\
  Econet300Api.set_param
    (net_always 200 (JObj {[ "result" := JStr "OK" ]})) sample_client
    (@map_param sample_const "unknown") "60" fresh
  = (Ok false, fresh).
Proof.
  pose proof (set_param_spec (K := sample_const)
                (net_always 200 (JObj {[ "result" := JStr "OK" ]}))
                sample_client "60" fresh) as (_ & Hunmapped & Hkey).
  split; [vm_compute; reflexivity|]. split.
  - apply (Hkey "1280"). vm_compute. reflexivity.
  - apply Hunmapped. vm_compute. reflexivity.
Defined.

Lemma cache_only_after_confirmed_write_witness :
  cache (snd (Econet300Api.set_param
                (net_always 200 (JObj {[ "result" := JStr "FAIL" ]}))
                sample_client (Some "1280") "60" fresh))
    = cache fresh /\
  cache (snd (Econet300Api.set_param
                (net_always 200 (JObj {[ "result" := JStr "OK" ]}))
                sample_client (Some "1280") "60" fresh))
    = MemCache.set (cache fresh) "1280" (JStr "60").
Proof.
  split.
  - apply (cache_only_after_confirmed_write (K := sample_const)).
    vm_compute. discriminate.
  - apply (cache_only_after_confirmed_write (K := sample_const)).
    vm_compute. reflexivity.
Defined.

Lemma get_all_timeouts_witness :
  (forall i, (i < 5)%nat ->
     net_dead (trace fresh ++ timeouts "http://boiler.local/econet/sysParams" i)
       "http://boiler.local/econet/sysParams" = Timeout) /\
  fst (EconetClient._get net_dead sample_client
         "http://boiler.local/econet/sysParams" fresh) = Ok JNull /\
  requests
    (trace (snd (EconetClient._get net_dead sample_client
                   "http://boiler.local/econet/sysParams" fresh))) = 5%nat.
Proof.
  assert (forall i, (i < 5)%nat ->
            net_dead
              (trace fresh ++ timeouts "http://boiler.local/econet/sysParams" i)
              "http://boiler.local/econet/sysParams" = Timeout) as Hto
    by (intros i _; reflexivity).
  split; [exact Hto|].
  destruct (get_all_timeouts net_dead sample_client
              "http://boiler.local/econet/sysParams" fresh Hto) as [Heq Hreq].
  split; [now rewrite Heq | exact Hreq].
Defined.

Lemma get_unauthorized_witness :
  net_always 401 JNull (trace fresh) "http://boiler.local/econet/sysParams"
    = Response HTTPStatus.UNAUTHORIZED JNull /\
  EconetClient._get (net_always 401 JNull) sample_client
    "http://boiler.local/econet/sysParams" fresh
  = (Raise AuthError,
     with_trace fresh [EvGet "http://boiler.local/econet/sysParams"]).
Proof.
  split; [reflexivity|].
  apply (get_unauthorized (net_always 401 JNull) sample_client
           "http://boiler.local/econet/sysParams" fresh JNull).
  reflexivity.
Defined.

(** A device that serves the limits table: the first call fetches it once,
    a later call for another key fetches nothing. *)
Lemma get_param_limits_lazy_witness :
  let net := net_always 200 sample_limits_envelope in
  let st1 :=
    with_trace fresh
      [EvGet "http://boiler.local/econet/rmCurrentDataParamsEdits"] in
  let first :=
    Econet300Api.get_param_limits (K := sample_const) net sample_client
      (Some "1280") fresh in
  (MemCache.exists_ (cache fresh) "data" = false /\
   Econet300Api._fetch_reg_key net sample_client "rmCurrentDataParamsEdits"
     (Some "data") fresh = (Ok sample_limits, st1)) /\
  fst first = Ok (Some (Limits.mk (JNum 27) (JNum 68))) /\
  snd first = with_cache st1 {[ "data" := sample_limits ]} /\
  snd (Econet300Api.get_param_limits (K := sample_const) net sample_client
         (Some "1281") (snd first)) = snd first.
Proof.
  intros net st1 first.
  assert (MemCache.exists_ (cache fresh) "data" = false) as Hcold
    by reflexivity.
  assert (Econet300Api._fetch_reg_key net sample_client
            "rmCurrentDataParamsEdits" (Some "data") fresh
          = (Ok sample_limits, st1)) as Hfetch
    by (vm_compute; reflexivity).
  split; [split; assumption|].
  destruct (get_param_limits_lazy (K := sample_const) net sample_client
              fresh st1 sample_limits (Some "1280") Hcold Hfetch)
    as (Hafter & _ & Hentry & Hlater & _).
  split; [|split].
  - apply (Hentry "1280"
             {[ "1280" := JObj {[ "min" := JNum 27; "max" := JNum 68 ]} ]}
             eq_refl eq_refl
             {[ "min" := JNum 27; "max" := JNum 68 ]} (JNum 27) (JNum 68)
             eq_refl);
      vm_compute; reflexivity.
  - exact Hafter.
  - exact (Hlater [] (Some "1281")).
Defined.

Lemma get_param_limits_no_key_fetches_witness :
  MemCache.exists_ (cache fresh) "data" = false /\
  Econet300Api.get_param_limits (K := sample_const)
    (net_always 200 sample_limits_envelope) sample_client None fresh
  = (Ok None,
     with_cache
       (with_trace fresh
          [EvGet "http://boiler.local/econet/rmCurrentDataParamsEdits"])
       {[ "data" := sample_limits ]}).
Proof.
  split; [reflexivity|].
  destruct (get_param_limits_no_key_fetches (K := sample_const)
              (net_always 200 sample_limits_envelope) sample_client
              fresh "60" eq_refl) as (Heq & _ & _).
  rewrite Heq. vm_compute. reflexivity.
Defined.

(** A device whose system parameters lack the hardware version. *)
Lemma init_identity_witness :
  let net := net_always 200 sample_sys_params in
  let st1 := with_trace fresh [EvGet "http://boiler.local/econet/sysParams"] in
  let st' := snd (Econet300Api.init (K := sample_const) net sample_client fresh) in
  EconetClient.fetch_sys_params net sample_client "sysParams" fresh
    = (Ok sample_sys_params, st1) /\
  Econet300Api.hw_ver st' = JStr "default-hw-version" /\
  Econet300Api.uid st' = JStr "ABC123" /\
  Econet300Api.model_id st' = JStr "ecoMAX810P-L" /\
  Econet300Api.sw_rev st' = JStr "3.2.3826".
Proof.
  intros net st1 st'.
  assert (EconetClient.fetch_sys_params net sample_client "sysParams" fresh
          = (Ok sample_sys_params, st1)) as Hc
    by (vm_compute; reflexivity).
  split; [exact Hc|].
  destruct (init_identity (K := sample_const) net sample_client fresh st1
              sample_sys_params Hc) as (_ & Hobj & _).
  destruct (Hobj _ eq_refl ltac:(vm_compute; reflexivity))
    as (_ & Hhw & Huid & Hmodel & Hsw).
  subst st'. rewrite Hhw, Huid, Hmodel, Hsw. vm_compute. auto.
Defined.

(** A device that answers 500 to everything: no envelope. *)
Lemma registry_reads_witness :
  Econet300Api.fetch_reg_params (K := sample_const)
    (net_always 500 JNull) sample_client fresh
  = (Raise DataError,
     with_trace fresh [EvGet "http://boiler.local/econet/regParams"]) /\
  Econet300Api.fetch_reg_params_data (K := sample_const)
    (net_always 500 JNull) sample_client fresh
  = (Ok (JObj ∅),
     with_trace fresh [EvGet "http://boiler.local/econet/regParamsData"]).
Proof.
  split.
  - apply (registry_reads (K := sample_const) (net_always 500 JNull)
             sample_client fresh _ JNull); reflexivity.
  - apply (registry_reads (K := sample_const) (net_always 500 JNull)
             sample_client fresh _ JNull); reflexivity.
Defined.

(** C6 fails as stated.  With no envelope (the device answers 500),
    [fetch_sys_params] returns [None] and [fetch_reg_params_data] returns an
    empty mapping: neither signals a data error.  With an envelope,
    [fetch_sys_params] returns the envelope itself, no key unwrapped, and
    [fetch_reg_params_data] returns an empty mapping when its key is not in
    the envelope. *)
Lemma registry_reads_counterexample :
  (fst (EconetClient.fetch_sys_params (net_always 500 JNull) sample_client
          "sysParams" fresh) = Ok JNull /\
   fst (Econet300Api.fetch_sys_params (K := sample_const)
          (net_always 500 JNull) sample_client fresh) = Ok JNull /\
   fst (Econet300Api.fetch_sys_params (K := sample_const)
          (net_always 500 JNull) sample_client fresh) <> Raise DataError) /\
  (fst (EconetClient.fetch_sys_params (net_always 500 JNull) sample_client
          "regParamsData" fresh) = Ok JNull /\
   fst (Econet300Api.fetch_reg_params_data (K := sample_const)
          (net_always 500 JNull) sample_client fresh) = Ok (JObj ∅) /\
   fst (Econet300Api.fetch_reg_params_data (K := sample_const)
          (net_always 500 JNull) sample_client fresh) <> Raise DataError) /\
  fst (Econet300Api.fetch_sys_params (K := sample_const)
         (net_always 200 sample_sys_params) sample_client fresh)
    = Ok sample_sys_params /\
  (fst (EconetClient.fetch_sys_params
          (net_always 200 (JObj {[ "other" := JNum 1 ]})) sample_client
          "regParamsData" fresh) = Ok (JObj {[ "other" := JNum 1 ]}) /\
   fst (Econet300Api.fetch_reg_params_data (K := sample_const)
          (net_always 200 (JObj {[ "other" := JNum 1 ]})) sample_client fresh)
     = Ok (JObj ∅)).
Proof.
  repeat split; try (vm_compute; reflexivity); vm_compute; discriminate.
Qed.



(** * Further properties of the client *)

Section ClientMore.

Variable net : list event -> string -> outcome.
Variable self : EconetClient.t.

(** [k] timeouts in a row, with attempts to spare, take the loop [k]
    attempts further. *)
Lemma _get_loop_skip_timeouts (url : string) (k : nat) :
  forall (attempt : Z) (st : state),
    attempt + Z.of_nat k <= EconetClient.max_attempts + 1 ->
    (forall i, (i < k)%nat -> net (trace st ++ timeouts url i) url = Timeout) ->
    EconetClient._get_loop net url attempt st =
    EconetClient._get_loop net url (attempt + Z.of_nat k)
      (with_trace st (trace st ++ timeouts url k)).
Proof.
  induction k as [|k IH]; intros attempt st Hatt Hto.
  - simpl. now rewrite Z.add_0_r, app_nil_r, with_trace_id.
  - rewrite _get_loop_unfold. unfold EconetClient.max_attempts in *.
    destruct (decide (attempt <= 5)); [|lia]. cbv zeta.
    pose proof (Hto O ltac:(lia)) as H0.
    simpl in H0. rewrite app_nil_r in H0. rewrite H0.
    rewrite IH.
    + simpl. rewrite <- !app_assoc. simpl.
      replace (attempt + 1 + Z.of_nat k) with (attempt + Z.pos (Pos.of_succ_nat k))
        by lia.
      reflexivity.
    + lia.
    + intros i Hi. simpl. rewrite <- !app_assoc. simpl.
      apply (Hto (S i)). lia.
Qed.

(** X1. Retry, then an answer.  When the first [k] attempts of a [_get]
    time out, [k] below five, and the next attempt is answered, that answer
    ends the call: a 200 gives the body, a 401 raises [AuthError], any other
    status gives [None].  There were [k] pauses and [k + 1] requests. *)
Theorem get_retries_then_answer (url : string) (st : state) (k : nat)
    (status : Z) (body : json) :
  (k < 5)%nat ->
  (forall i, (i < k)%nat -> net (trace st ++ timeouts url i) url = Timeout) ->
  net (trace st ++ timeouts url k) url = Response status body ->
  snd (EconetClient._get net self url st)
    = with_trace st (trace st ++ timeouts url k ++ [EvGet url]) /\
  (status = HTTPStatus.OK ->
   fst (EconetClient._get net self url st) = Ok body) /\
  (status = HTTPStatus.UNAUTHORIZED ->
   fst (EconetClient._get net self url st) = Raise AuthError) /\
  (status <> HTTPStatus.OK -> status <> HTTPStatus.UNAUTHORIZED ->
   fst (EconetClient._get net self url st) = Ok JNull).
Proof.
  intros Hk Hto Hresp. unfold EconetClient._get.
  rewrite (_get_loop_skip_timeouts url k 1 st);
    [| unfold EconetClient.max_attempts; lia | exact Hto].
  rewrite _get_loop_unfold. unfold EconetClient.max_attempts.
  destruct (decide (1 + Z.of_nat k <= 5)); [|lia].
  cbv zeta. simpl trace. rewrite Hresp.
  unfold HTTPStatus.OK, HTTPStatus.UNAUTHORIZED.
  destruct (status =? 401) eqn:E401; [|destruct (status =? 200) eqn:E200];
    simpl; rewrite <- !app_assoc; (split; [reflexivity|]);
    repeat split; intros; try reflexivity; lia.
Qed.

(** X2. Only timeouts are retried.  When the first [k] attempts time out
    and the next one fails with another exception, [_get] lets it through at
    once: no pause follows and no further request is made. *)
Theorem get_failure_not_retried (url : string) (st : state) (k : nat) :
  (k < 5)%nat ->
  (forall i, (i < k)%nat -> net (trace st ++ timeouts url i) url = Timeout) ->
  net (trace st ++ timeouts url k) url = Failed ->
  EconetClient._get net self url st
    = (Raise ClientError,
       with_trace st (trace st ++ timeouts url k ++ [EvGet url])).
Proof.
  intros Hk Hto Hfail. unfold EconetClient._get.
  rewrite (_get_loop_skip_timeouts url k 1 st);
    [| unfold EconetClient.max_attempts; lia | exact Hto].
  rewrite _get_loop_unfold. unfold EconetClient.max_attempts.
  destruct (decide (1 + Z.of_nat k <= 5)); [|lia].
  cbv zeta. simpl trace. rewrite Hfail. simpl. now rewrite <- !app_assoc.
Qed.

(** What the loop adds to the trace, for any network: some rounds of timeout
    and pause and then, unless the attempts ran out, one last request. *)
Lemma _get_loop_shape (url : string) (n : nat) :
  forall (attempt : Z) (st : state),
    n = Z.to_nat (EconetClient.max_attempts + 1 - attempt) ->
    exists k,
      (k <= n)%nat /\
      (forall i, (i < k)%nat ->
         net (trace st ++ timeouts url i) url = Timeout) /\
      ((k = n /\
        EconetClient._get_loop net url attempt st
          = (Ok JNull, with_trace st (trace st ++ timeouts url k))) \/
       ((k < n)%nat /\
        net (trace st ++ timeouts url k) url <> Timeout /\
        snd (EconetClient._get_loop net url attempt st)
          = with_trace st (trace st ++ timeouts url k ++ [EvGet url]))).
Proof.
  induction n as [|n IH]; intros attempt st Hn;
    rewrite _get_loop_unfold; unfold EconetClient.max_attempts in *.
  - destruct (decide (attempt <= 5)); [lia|].
    exists O. split; [lia|]. split; [intros i Hi; lia|]. left.
    split; [reflexivity|]. simpl. now rewrite app_nil_r, with_trace_id.
  - destruct (decide (attempt <= 5)); [|lia]. cbv zeta.
    destruct (net (trace st) url) as [| |status body] eqn:Hnet.
    + remember (snd (sleep 1 (with_trace st (trace st ++ [EvGet url]))))
        as st2 eqn:Hst2.
      assert (trace st2 = (trace st ++ [EvGet url; EvSleep 1])%list) as Htr
        by (subst st2; simpl; now rewrite <- app_assoc).
      assert (forall t, with_trace st2 t = with_trace st t) as Hw
        by (intros t; subst st2; reflexivity).
      destruct (IH (attempt + 1) st2) as (k & Hk & Hto & Hcases); [lia|].
      rewrite Htr, Hw in Hcases.
      exists (S k). split; [lia|]. split.
      * intros [|i] Hi.
        -- simpl. now rewrite app_nil_r.
        -- specialize (Hto i ltac:(lia)). rewrite Htr in Hto.
           rewrite <- app_assoc in Hto. exact Hto.
      * destruct Hcases as [[-> Heq] | (Hlt & Hne & Heq)].
        -- left. split; [reflexivity|]. rewrite Heq.
           now rewrite <- app_assoc.
        -- right. split; [lia|]. split.
           ++ rewrite <- app_assoc in Hne. exact Hne.
           ++ rewrite Heq. now rewrite <- app_assoc.
    + exists O. split; [lia|]. split; [intros i Hi; lia|]. right.
      split; [lia|]. simpl. rewrite app_nil_r. split; [congruence|reflexivity].
    + exists O. split; [lia|]. split; [intros i Hi; lia|]. right.
      split; [lia|]. simpl. rewrite app_nil_r. split; [congruence|].
      destruct (status =? HTTPStatus.UNAUTHORIZED); [reflexivity|].
      destruct (negb (status =? HTTPStatus.OK)); reflexivity.
Qed.

Lemma trace_with_trace (st : state) (t : list event) :
  trace (with_trace st t) = t.
Proof. reflexivity. Qed.

Lemma requests_app (t u : list event) :
  requests (t ++ u) = (requests t + requests u)%nat.
Proof. unfold requests. now rewrite List.filter_app, List.length_app. Qed.

Lemma requests_timeouts (url : string) (k : nat) :
  requests (timeouts url k) = k.
Proof.
  induction k as [|k IH]; [reflexivity|].
  unfold requests in *. simpl. now rewrite IH.
Qed.

(** X3. The budget of a [_get], on any network.  A call makes at least one
    and at most five requests, all of the given URL, and touches nothing but
    the trace.  Either all five attempts timed out and it returns [None], or
    it stopped at the first attempt that did not time out: every request but
    the last is followed by a pause of 1, and the last one by none. *)
Theorem get_budget (url : string) (st : state) :
  exists k,
    (k <= 5)%nat /\
    (forall i, (i < k)%nat ->
       net (trace st ++ timeouts url i) url = Timeout) /\
    ((k = 5%nat /\
      EconetClient._get net self url st
        = (Ok JNull, with_trace st (trace st ++ timeouts url 5))) \/
     ((k < 5)%nat /\
      net (trace st ++ timeouts url k) url <> Timeout /\
      snd (EconetClient._get net self url st)
        = with_trace st (trace st ++ timeouts url k ++ [EvGet url]))) /\
    (1 <= requests (trace (snd (EconetClient._get net self url st)))
          - requests (trace st) <= 5)%nat.
Proof.
  unfold EconetClient._get.
  destruct (_get_loop_shape url 5 1 st eq_refl) as (k & Hk & Hto & Hcases).
  exists k. split; [exact Hk|]. split; [exact Hto|]. split.
  - destruct Hcases as [[-> Heq] | Hlast]; [left | right]; auto.
  - destruct Hcases as [[-> Heq] | (Hlt & _ & Heq)]; rewrite Heq;
      cbn [snd]; rewrite trace_with_trace.
    + rewrite requests_app, requests_timeouts. lia.
    + rewrite !requests_app, requests_timeouts.
      change (requests [EvGet url]) with 1%nat. lia.
Qed.

(** X4. What comes out of [_get], and so of the client's [set_param] and
    [fetch_sys_params], which are [_get] at their URLs: nothing but
    [AuthError] and [ClientError], on any network; [AuthError] only when an
    attempt was answered with 401, [ClientError] only when an attempt failed
    with an exception other than a timeout. *)
Theorem client_raises (url : string) (st : state) (e : exn) :
  fst (EconetClient._get net self url st) = Raise e ->
  (e = AuthError /\
   exists k body,
     (k < 5)%nat /\
     net (trace st ++ timeouts url k) url
       = Response HTTPStatus.UNAUTHORIZED body) \/
  (e = ClientError /\
   exists k, (k < 5)%nat /\ net (trace st ++ timeouts url k) url = Failed).
Proof.
  intros Hraise. unfold EconetClient._get in Hraise.
  destruct (_get_loop_shape url 5 1 st eq_refl) as (k & Hk & Hto & Hcases).
  destruct Hcases as [[-> Heq] | (Hlt & Hne & _)].
  - rewrite Heq in Hraise. discriminate.
  - rewrite (_get_loop_skip_timeouts url k 1 st) in Hraise;
      [| unfold EconetClient.max_attempts; lia | exact Hto].
    rewrite _get_loop_unfold in Hraise.
    unfold EconetClient.max_attempts in Hraise.
    destruct (decide (1 + Z.of_nat k <= 5)); [|lia].
    cbv zeta in Hraise. simpl trace in Hraise.
    destruct (net (trace st ++ timeouts url k) url) as [| |status body] eqn:Hnet.
    + contradiction.
    + injection Hraise as <-. right. split; [reflexivity|]. exists k. auto.
    + destruct (status =? HTTPStatus.UNAUTHORIZED) eqn:E401.
      * injection Hraise as <-. left. split; [reflexivity|].
        exists k, body. split; [exact Hlt|].
        apply Z.eqb_eq in E401. rewrite Hnet. now rewrite E401.
      * destruct (negb (status =? HTTPStatus.OK)); discriminate.
Qed.

End ClientMore.

(** X5. The stored host always has one of the two schemes in it, and giving
    a stored host to the constructor again changes nothing. *)
Theorem host_normalised (host username password username' password' : string) :
  let stored :=
    EconetClient.host (EconetClient.__init__ host username password) in
  ((exists pre post, stored = pre +:+ "http://" +:+ post) \/
   (exists pre post, stored = pre +:+ "https://" +:+ post)) /\
  EconetClient.host (EconetClient.__init__ stored username' password')
    = stored.
Proof.
  unfold EconetClient.host, EconetClient.__init__, EconetClient.proto.
  cbn [forallb EconetClient._host]. rewrite !andb_true_r.
  destruct (Py.str_in "http://" host) eqn:Hhttp; cbn [negb andb].
  - rewrite Hhttp. cbn [negb andb]. split; [|reflexivity].
    left. now apply str_in_app.
  - destruct (Py.str_in "https://" host) eqn:Hhttps; cbn [negb andb].
    + rewrite Hhttp, Hhttps. cbn [negb andb]. split; [|reflexivity].
      right. now apply str_in_app.
    + assert (Py.str_in "http://" ("http://" +:+ host) = true) as Hin.
      { apply str_in_app. exists "", host. reflexivity. }
      rewrite Hin. cbn [negb andb]. split; [|reflexivity].
      left. exists "", host. reflexivity.
Qed.

(** * Further properties of the facade *)

#[local] Instance same_identity_preorder : PreOrder same_identity.
Proof.
  split.
  - intros st. unfold same_identity. auto.
  - intros a b c (H1 & H2 & H3 & H4) (H5 & H6 & H7 & H8).
    unfold same_identity. repeat split; congruence.
Qed.

#[local] Instance same_trace_preorder : PreOrder same_trace.
Proof.
  split.
  - intros st. reflexivity.
  - intros a b c Hab Hbc. unfold same_trace in *. congruence.
Qed.

Lemma only_trace_same_identity (st st' : state) :
  only_trace st st' -> same_identity st st'.
Proof. intros [evs ->]. unfold same_identity. auto. Qed.

Section ApiMore.

Context {K : Const}.
Variable net : list event -> string -> outcome.
Variable client : EconetClient.t.

(** X6. [_fetch_reg_names] and [_fetch_reg_key] are the same function: for
    every registry, key (or none) and state they return or raise the same
    and leave the same state.  So [fetch_reg_params] is [_fetch_reg_key] on
    its registry and key. *)
Theorem fetch_reg_helpers_agree (reg : string) (data_key : option string)
    (st : state) :
  Econet300Api._fetch_reg_names net client reg data_key st
    = Econet300Api._fetch_reg_key net client reg data_key st /\
  Econet300Api.fetch_reg_params net client st
    = Econet300Api._fetch_reg_key net client API_REG_PARAMS_URI
        (Some API_REG_PARAMS_PARAM_DATA) st.
Proof.
  split.
  - apply _fetch_reg_names_key.
  - apply fetch_reg_params_key.
Qed.

(** With the table in the cache, [fetch_param_edit_data] returns it and
    leaves the state. *)
Lemma fetch_param_edit_data_cached (limits : json) (st : state) :
  MemCache.get (cache st) API_EDITABLE_PARAMS_LIMITS_DATA = Some limits ->
  Econet300Api.fetch_param_edit_data net client st = (Ok limits, st).
Proof.
  intros Hget.
  unfold Econet300Api.fetch_param_edit_data, Econet300Api._cache_exists.
  unfold bind at 1. unfold MemCache.exists_, MemCache.get in *.
  rewrite Hget. simpl negb. cbv iota.
  unfold bind at 1. unfold ret at 1.
  unfold Econet300Api._cache_get, MemCache.get. now rewrite Hget.
Qed.

(** X7. The two reads of the limits share one cache entry.  On a cold
    cache, when the fetch returns the table, [fetch_param_edit_data] returns
    it and stores it; after that it returns the table again without a
    request, and [get_param_limits] is the look-up in that table without a
    request.  The same holds after a first [get_param_limits]. *)
Theorem limits_reads_share_cache (st st1 : state) (table : json)
    (param param' : option string) :
  MemCache.exists_ (cache st) API_EDITABLE_PARAMS_LIMITS_DATA = false ->
  Econet300Api._fetch_reg_key net client API_EDITABLE_PARAMS_LIMITS_URI
    (Some API_EDITABLE_PARAMS_LIMITS_DATA) st = (Ok table, st1) ->
  let st2 :=
    with_cache st1
      (MemCache.set (cache st) API_EDITABLE_PARAMS_LIMITS_DATA table) in
  Econet300Api.fetch_param_edit_data net client st = (Ok table, st2) /\
  snd (Econet300Api.get_param_limits net client param st) = st2 /\
  Econet300Api.fetch_param_edit_data net client st2 = (Ok table, st2) /\
  Econet300Api.get_param_limits net client param' st2
    = limits_entry param' table st2 /\
  snd (limits_entry param' table st2) = st2.
Proof.
  intros Hcold Hfetch st2.
  pose proof (_fetch_reg_key_same_cache net client API_EDITABLE_PARAMS_LIMITS_URI
                (Some API_EDITABLE_PARAMS_LIMITS_DATA) st) as Hsame.
  rewrite Hfetch in Hsame. simpl in Hsame.
  assert (MemCache.get (cache st2) API_EDITABLE_PARAMS_LIMITS_DATA
          = Some table) as Hget.
  { subst st2. unfold MemCache.get, MemCache.set. simpl.
    apply lookup_insert_eq. }
  split; [|split; [|split; [|split]]].
  - rewrite (fetch_param_edit_data_cold net client st Hcold), Hfetch.
    subst st2. now rewrite Hsame.
  - rewrite (get_param_limits_cold_state net client param st Hcold), Hfetch.
    subst st2. now rewrite Hsame.
  - now apply fetch_param_edit_data_cached.
  - now apply get_param_limits_cached.
  - apply limits_entry_state.
Qed.

(** X8. A fetch of the limits that fails is not cached.  On a cold cache,
    when the fetch raises, both reads of the limits raise the same exception
    and the cache is as cold as before, so the next read fetches again. *)
Theorem limits_fetch_failure_not_cached (st st1 : state) (e : exn)
    (param : option string) :
  MemCache.exists_ (cache st) API_EDITABLE_PARAMS_LIMITS_DATA = false ->
  Econet300Api._fetch_reg_key net client API_EDITABLE_PARAMS_LIMITS_URI
    (Some API_EDITABLE_PARAMS_LIMITS_DATA) st = (Raise e, st1) ->
  Econet300Api.get_param_limits net client param st = (Raise e, st1) /\
  Econet300Api.fetch_param_edit_data net client st = (Raise e, st1) /\
  cache st1 = cache st /\
  MemCache.exists_ (cache st1) API_EDITABLE_PARAMS_LIMITS_DATA = false.
Proof.
  intros Hcold Hfetch.
  pose proof (_fetch_reg_key_same_cache net client API_EDITABLE_PARAMS_LIMITS_URI
                (Some API_EDITABLE_PARAMS_LIMITS_DATA) st) as Hsame.
  rewrite Hfetch in Hsame. simpl in Hsame.
  split; [|split; [|split]].
  - now rewrite (get_param_limits_cold net client param st Hcold), Hfetch.
  - now rewrite (fetch_param_edit_data_cold net client st Hcold), Hfetch.
  - exact Hsame.
  - now rewrite Hsame.
Qed.

(** X9. The look-up in a cached table that is an object.  Nothing is
    requested and the state stays.  A key that is not in the table gives
    [None]; an entry that is an object with ["min"] and ["max"] gives the
    pair; an entry that is an object without one of the two raises
    [KeyError]; an entry that is not an object raises [TypeError]. *)
Theorem get_param_limits_cached_lookup (st : state)
    (entries : gmap string json) (key : string) :
  MemCache.get (cache st) API_EDITABLE_PARAMS_LIMITS_DATA
    = Some (JObj entries) ->
  snd (Econet300Api.get_param_limits net client (Some key) st) = st /\
  fst (Econet300Api.get_param_limits net client (Some key) st) =
    match entries !! key with
    | None => Ok None
    | Some (JObj fields) =>
        match fields !! "min", fields !! "max" with
        | Some min_v, Some max_v => Ok (Some (Limits.mk min_v max_v))
        | _, _ => Raise KeyError
        end
    | Some _ => Raise TypeError
    end.
Proof.
  intros Hget. rewrite (get_param_limits_cached net client (Some key) _ st Hget).
  split; [apply limits_entry_state|].
  unfold limits_entry, bind, lift, ret. simpl.
  destruct (entries !! key) as [entry|]; [|reflexivity]. simpl.
  destruct entry as [| | | | |fields]; try reflexivity. simpl.
  destruct (fields !! "min"); simpl; [|reflexivity].
  destruct (fields !! "max"); reflexivity.
Qed.

(** X10. A null table sticks.  When the envelope of the limits has [null]
    under its key, the fetch returns [None] and [get_param_limits] stores it
    like a table.  From then on, without any request, a look-up without a
    key returns [None] and a look-up with a key raises [TypeError]. *)
Theorem null_limits_table_sticks (st st1 : state) (env : gmap string json)
    (key : string) :
  MemCache.exists_ (cache st) API_EDITABLE_PARAMS_LIMITS_DATA = false ->
  EconetClient.fetch_sys_params net client API_EDITABLE_PARAMS_LIMITS_URI st
    = (Ok (JObj env), st1) ->
  env !! API_EDITABLE_PARAMS_LIMITS_DATA = Some JNull ->
  let st2 :=
    with_cache st1
      (MemCache.set (cache st) API_EDITABLE_PARAMS_LIMITS_DATA JNull) in
  Econet300Api.get_param_limits net client None st = (Ok None, st2) /\
  Econet300Api.get_param_limits net client (Some key) st
    = (Raise TypeError, st2) /\
  Econet300Api.get_param_limits net client None st2 = (Ok None, st2) /\
  Econet300Api.get_param_limits net client (Some key) st2
    = (Raise TypeError, st2).
Proof.
  intros Hcold Hc Hnull st2.
  pose proof (_fetch_reg_key_object net client API_EDITABLE_PARAMS_LIMITS_URI
                API_EDITABLE_PARAMS_LIMITS_DATA st st1 env Hc) as Hfetch.
  rewrite Hnull in Hfetch.
  pose proof (_fetch_reg_key_same_cache net client API_EDITABLE_PARAMS_LIMITS_URI
                (Some API_EDITABLE_PARAMS_LIMITS_DATA) st) as Hsame.
  rewrite Hfetch in Hsame. simpl in Hsame.
  assert (MemCache.get (cache st2) API_EDITABLE_PARAMS_LIMITS_DATA
          = Some JNull) as Hget.
  { subst st2. unfold MemCache.get, MemCache.set. simpl.
    apply lookup_insert_eq. }
  split; [|split; [|split]].
  - rewrite (get_param_limits_cold net client None st Hcold), Hfetch.
    subst st2. now rewrite Hsame.
  - rewrite (get_param_limits_cold net client (Some key) st Hcold), Hfetch.
    subst st2. now rewrite Hsame.
  - now rewrite (get_param_limits_cached net client None JNull st2 Hget).
  - now rewrite (get_param_limits_cached net client (Some key) JNull st2 Hget).
Qed.

(** *** init on any response *)

(** X11. [init] on an object.  Each of the four identity attributes takes
    the value of its key when the key is in the object, whatever the
    attribute was before, and stays as it was when the key is not; [init]
    returns, the cache is not touched, and nothing is requested beyond the
    one fetch. *)
Theorem init_object_all (st st1 : state) (env : gmap string json) :
  EconetClient.fetch_sys_params net client API_SYS_PARAMS_URI st
    = (Ok (JObj env), st1) ->
  let st' := snd (Econet300Api.init net client st) in
  fst (Econet300Api.init net client st) = Ok tt /\
  Econet300Api.uid st'
    = default (Econet300Api.uid st) (env !! API_SYS_PARAMS_PARAM_UID) /\
  Econet300Api.model_id st'
    = default (Econet300Api.model_id st)
        (env !! API_SYS_PARAMS_PARAM_MODEL_ID) /\
  Econet300Api.sw_rev st'
    = default (Econet300Api.sw_rev st) (env !! API_SYS_PARAMS_PARAM_SW_REV) /\
  Econet300Api.hw_ver st'
    = default (Econet300Api.hw_ver st) (env !! API_SYS_PARAMS_PARAM_HW_VER) /\
  cache st' = cache st /\
  trace st' = trace st1.
Proof.
  intros Hc st'. subst st'.
  pose proof (client_fetch_sys_params_steps net client API_SYS_PARAMS_URI st)
    as [evs Hevs].
  rewrite Hc in Hevs. simpl in Hevs. subst st1.
  rewrite (init_object net client _ _ _ Hc).
  unfold Econet300Api.uid, Econet300Api.model_id, Econet300Api.sw_rev,
    Econet300Api.hw_ver.
  destruct (env !! API_SYS_PARAMS_PARAM_UID),
    (env !! API_SYS_PARAMS_PARAM_MODEL_ID),
    (env !! API_SYS_PARAMS_PARAM_SW_REV),
    (env !! API_SYS_PARAMS_PARAM_HW_VER); simpl; auto 10.
Qed.

Lemma fill_attr_non_object (key : string) (data : json)
    (assign : state -> json -> state) (st : state) :
  (forall env, data <> JObj env) ->
  snd (Econet300Api.fill_attr key data assign st) = st /\
  (fst (Econet300Api.fill_attr key data assign st) = Ok tt \/
   fst (Econet300Api.fill_attr key data assign st) = Raise TypeError).
Proof.
  intros Hno. unfold Econet300Api.fill_attr, bind, lift, ret.
  destruct data as [|b|n|s|l|m]; simpl; auto.
  - destruct (Py.str_in key s); simpl; auto.
  - destruct (existsb _ l); simpl; auto.
  - exfalso. now apply (Hno m).
Qed.

Lemma seq_quiet (m k : M unit) :
  (forall st, snd (m st) = st /\
              (fst (m st) = Ok tt \/ fst (m st) = Raise TypeError)) ->
  (forall st, snd (k st) = st /\
              (fst (k st) = Ok tt \/ fst (k st) = Raise TypeError)) ->
  forall st, snd ((m ;;; k) st) = st /\
             (fst ((m ;;; k) st) = Ok tt \/
              fst ((m ;;; k) st) = Raise TypeError).
Proof.
  intros Hm Hk st. unfold bind. destruct (Hm st) as [Hs Hr].
  destruct (m st) as [[[]|e] st1]; simpl in *; subst st1.
  - apply Hk.
  - destruct Hr as [Hr|Hr]; [discriminate|]. auto.
Qed.

Lemma init_after_fetch (st st1 : state) (data : json) :
  EconetClient.fetch_sys_params net client API_SYS_PARAMS_URI st
    = (Ok data, st1) ->
  Econet300Api.init net client st =
  match data with
  | JNull => ret tt
  | _ =>
      Econet300Api.fill_attr API_SYS_PARAMS_PARAM_UID data with_uid ;;;
      Econet300Api.fill_attr API_SYS_PARAMS_PARAM_MODEL_ID data
        with_model_id ;;;
      Econet300Api.fill_attr API_SYS_PARAMS_PARAM_SW_REV data
        with_sw_revision ;;;
      Econet300Api.fill_attr API_SYS_PARAMS_PARAM_HW_VER data with_hw_version
  end st1.
Proof.
  intros Hc. unfold Econet300Api.init. unfold bind at 1. now rewrite Hc.
Qed.

(** X12. [init] on a response that is not an object assigns nothing: the
    state after it is the state after the fetch, so the identity attributes
    and the cache are what they were.  It returns, or raises [TypeError]; it
    returns on [None] and raises on a number or a boolean. *)
Theorem init_non_object (st st1 : state) (data : json) :
  EconetClient.fetch_sys_params net client API_SYS_PARAMS_URI st
    = (Ok data, st1) ->
  (forall env, data <> JObj env) ->
  snd (Econet300Api.init net client st) = st1 /\
  same_identity st (snd (Econet300Api.init net client st)) /\
  cache (snd (Econet300Api.init net client st)) = cache st /\
  (fst (Econet300Api.init net client st) = Ok tt \/
   fst (Econet300Api.init net client st) = Raise TypeError) /\
  (data = JNull -> fst (Econet300Api.init net client st) = Ok tt) /\
  ((exists b, data = JBool b) \/ (exists n, data = JNum n) ->
   fst (Econet300Api.init net client st) = Raise TypeError).
Proof.
  intros Hc Hno.
  pose proof (client_fetch_sys_params_steps net client API_SYS_PARAMS_URI st)
    as Hstep.
  rewrite Hc in Hstep. simpl in Hstep.
  assert (snd (Econet300Api.init net client st) = st1 /\
          (fst (Econet300Api.init net client st) = Ok tt \/
           fst (Econet300Api.init net client st) = Raise TypeError))
    as [Hst Hr].
  { rewrite (init_after_fetch _ _ _ Hc).
    destruct data as [|b|n|s|l|m]; [simpl; auto | | | | |];
      (apply seq_quiet; [|apply seq_quiet; [|apply seq_quiet]]; intros st0;
       apply fill_attr_non_object; exact Hno). }
  rewrite Hst. split; [reflexivity|]. split; [|split; [|split; [|split]]].
  - now apply only_trace_same_identity.
  - now apply only_trace_same_cache.
  - exact Hr.
  - intros ->. now rewrite (init_none net client _ _ Hc).
  - intros [[b ->] | [n ->]]; now rewrite (init_after_fetch _ _ _ Hc).
Qed.

(** *** What a call changes, requests and raises *)

(** X13. Only [init] assigns the identity attributes: every other
    operation of the facade, whatever it returns or raises, leaves the four
    of them as they were. *)
Theorem identity_only_in_init (o : op) (st : state) :
  o <> Init ->
  Econet300Api.uid (snd (call net client o st)) = Econet300Api.uid st /\
  Econet300Api.model_id (snd (call net client o st))
    = Econet300Api.model_id st /\
  Econet300Api.sw_rev (snd (call net client o st)) = Econet300Api.sw_rev st /\
  Econet300Api.hw_ver (snd (call net client o st)) = Econet300Api.hw_ver st.
Proof.
  intros Hno. change (same_identity st (snd (call net client o st))).
  destruct o as [|param value|param| | | |]; [contradiction| | | | | |];
    unfold call; rewrite bind_ret_snd.
  - destruct param as [key|]; [|reflexivity].
    pose proof (client_set_param_steps net client key value st) as Hstep.
    destruct (EconetClient.set_param net client key value st)
      as [[data|e] st1] eqn:Hc; simpl in Hstep;
      apply only_trace_same_identity in Hstep.
    + destruct (set_param_some net client key value st _ data Hc)
        as [Hyes Hno'].
      destruct (confirmed data).
      * rewrite (Hyes eq_refl). exact Hstep.
      * destruct (Hno' eq_refl) as (-> & _). exact Hstep.
    + now rewrite (set_param_raise net client key value st _ e Hc).
  - destruct (MemCache.exists_ (cache st) API_EDITABLE_PARAMS_LIMITS_DATA)
      eqn:Hex.
    + rewrite (get_param_limits_warm net client param st Hex). reflexivity.
    + rewrite (get_param_limits_cold_state net client param st Hex).
      destruct (_fetch_reg_key_frame net client API_EDITABLE_PARAMS_LIMITS_URI
                  (Some API_EDITABLE_PARAMS_LIMITS_DATA) st) as [evs Hevs].
      destruct (Econet300Api._fetch_reg_key net client _ _ st)
        as [[limits|e] st1]; simpl in Hevs; subst st1;
        unfold same_identity; auto.
  - rewrite fetch_reg_params_data_key.
    destruct (_fetch_reg_key_frame net client API_REG_PARAMS_DATA_URI
                (Some API_REG_PARAMS_DATA_PARAM_DATA) st) as [evs Hevs].
    destruct (Econet300Api._fetch_reg_key net client _ _ st)
      as [[v|e] st1]; simpl in Hevs; subst st1;
      [|destruct e]; unfold same_identity; auto.
  - destruct (MemCache.exists_ (cache st) API_EDITABLE_PARAMS_LIMITS_DATA)
      eqn:Hex.
    + rewrite (fetch_param_edit_data_warm net client st Hex). reflexivity.
    + rewrite (fetch_param_edit_data_cold net client st Hex).
      destruct (_fetch_reg_key_frame net client API_EDITABLE_PARAMS_LIMITS_URI
                  (Some API_EDITABLE_PARAMS_LIMITS_DATA) st) as [evs Hevs].
      destruct (Econet300Api._fetch_reg_key net client _ _ st)
        as [[limits|e] st1]; simpl in Hevs; subst st1;
        unfold same_identity; auto.
  - unfold Econet300Api.fetch_sys_params.
    apply only_trace_same_identity, client_fetch_sys_params_steps.
  - rewrite fetch_reg_params_key.
    destruct (_fetch_reg_key_frame net client API_REG_PARAMS_URI
                (Some API_REG_PARAMS_PARAM_DATA) st) as [evs ->].
    unfold same_identity. auto.
Qed.

Lemma init_trace (st : state) :
  trace (snd (Econet300Api.init net client st))
    = trace (snd (EconetClient.fetch_sys_params net client
                    API_SYS_PARAMS_URI st)).
Proof.
  destruct (EconetClient.fetch_sys_params net client API_SYS_PARAMS_URI st)
    as [[data|e] st1] eqn:Hc.
  - rewrite (init_after_fetch _ _ _ Hc). simpl snd at 2.
    change (same_trace st1
              (snd (match data with
                    | JNull => ret tt
                    | _ =>
                        Econet300Api.fill_attr API_SYS_PARAMS_PARAM_UID data
                          with_uid ;;;
                        Econet300Api.fill_attr API_SYS_PARAMS_PARAM_MODEL_ID
                          data with_model_id ;;;
                        Econet300Api.fill_attr API_SYS_PARAMS_PARAM_SW_REV
                          data with_sw_revision ;;;
                        Econet300Api.fill_attr API_SYS_PARAMS_PARAM_HW_VER
                          data with_hw_version
                    end st1))).
    generalize st1.
    change (steps same_trace
              (match data with
               | JNull => ret tt
               | _ =>
                   Econet300Api.fill_attr API_SYS_PARAMS_PARAM_UID data
                     with_uid ;;;
                   Econet300Api.fill_attr API_SYS_PARAMS_PARAM_MODEL_ID
                     data with_model_id ;;;
                   Econet300Api.fill_attr API_SYS_PARAMS_PARAM_SW_REV
                     data with_sw_revision ;;;
                   Econet300Api.fill_attr API_SYS_PARAMS_PARAM_HW_VER
                     data with_hw_version
               end)).
    destruct data; try (apply steps_ret; exact _);
      repeat (apply steps_bind; [exact _ | | intros _]);
      apply fill_attr_steps; try exact _; intros st0 v; reflexivity.
  - now rewrite (init_raise net client _ _ _ Hc).
Qed.

(** The trace after a call is the trace after the one [_get] of its URL, or
    the trace before when it has no URL. *)
Lemma call_trace (o : op) (st : state) :
  match request_url client o st with
  | None => trace (snd (call net client o st)) = trace st
  | Some url =>
      trace (snd (call net client o st))
        = trace (snd (EconetClient._get net client url st))
  end.
Proof.
  destruct o as [|param value|param| | | |]; unfold call;
    rewrite bind_ret_snd; cbn [request_url].
  - rewrite init_trace. now rewrite client_fetch_sys_params_get.
  - destruct param as [key|]; [|reflexivity].
    change (EconetClient._get net client (write_url client key value) st)
      with (EconetClient.set_param net client key value st).
    destruct (EconetClient.set_param net client key value st)
      as [[data|e] st1] eqn:Hc.
    + destruct (set_param_some net client key value st _ data Hc)
        as [Hyes Hno'].
      destruct (confirmed data).
      * now rewrite (Hyes eq_refl).
      * now destruct (Hno' eq_refl) as (-> & _).
    + now rewrite (set_param_raise net client key value st _ e Hc).
  - destruct (MemCache.exists_ (cache st) API_EDITABLE_PARAMS_LIMITS_DATA)
      eqn:Hex.
    + now rewrite (get_param_limits_warm net client param st Hex).
    + rewrite (get_param_limits_cold_state net client param st Hex).
      rewrite <- client_fetch_sys_params_get.
      rewrite <- (_fetch_reg_key_state net client _
                    (Some API_EDITABLE_PARAMS_LIMITS_DATA)).
      destruct (Econet300Api._fetch_reg_key net client _ _ st)
        as [[limits|e] st1]; reflexivity.
  - rewrite fetch_reg_params_data_key.
    rewrite <- client_fetch_sys_params_get.
    rewrite <- (_fetch_reg_key_state net client _
                  (Some API_REG_PARAMS_DATA_PARAM_DATA)).
    destruct (Econet300Api._fetch_reg_key net client _ _ st)
      as [[v|e] st1]; [reflexivity|]. destruct e; reflexivity.
  - destruct (MemCache.exists_ (cache st) API_EDITABLE_PARAMS_LIMITS_DATA)
      eqn:Hex.
    + now rewrite (fetch_param_edit_data_warm net client st Hex).
    + rewrite (fetch_param_edit_data_cold net client st Hex).
      rewrite <- client_fetch_sys_params_get.
      rewrite <- (_fetch_reg_key_state net client _
                    (Some API_EDITABLE_PARAMS_LIMITS_DATA)).
      destruct (Econet300Api._fetch_reg_key net client _ _ st)
        as [[limits|e] st1]; reflexivity.
  - unfold Econet300Api.fetch_sys_params.
    now rewrite client_fetch_sys_params_get.
  - rewrite fetch_reg_params_key, _fetch_reg_key_state.
    now rewrite client_fetch_sys_params_get.
Qed.

(** X14. One call of the facade is at most one call of the client.  An
    operation without a URL of its own (a [set_param] without a key, a read
    of the limits on a warm cache) requests nothing.  Any other makes between
    one and five requests, all of its one URL: rounds of timeout and pause,
    and a last request unless all five timed out. *)
Theorem call_requests (o : op) (st : state) :
  match request_url client o st with
  | None => trace (snd (call net client o st)) = trace st
  | Some url =>
      exists k,
        (k = 5%nat /\
         trace (snd (call net client o st))
           = (trace st ++ timeouts url 5)%list) \/
        ((k < 5)%nat /\
         trace (snd (call net client o st))
           = (trace st ++ timeouts url k ++ [EvGet url])%list)
  end.
Proof.
  pose proof (call_trace o st) as Htr.
  destruct (request_url client o st) as [url|]; [|exact Htr].
  rewrite Htr. unfold EconetClient._get.
  destruct (_get_loop_shape net url 5 1 st eq_refl)
    as (k & Hk & _ & Hcases).
  exists k. destruct Hcases as [[Hk5 Heq] | (Hlt & _ & Heq)].
  - left. split; [exact Hk5|]. rewrite Heq, Hk5. reflexivity.
  - right. split; [exact Hlt|]. now rewrite Heq.
Qed.

Lemma client_set_param_raises (key value : string) (st : state) (e : exn) :
  fst (EconetClient.set_param net client key value st) = Raise e ->
  e = AuthError \/ e = ClientError.
Proof.
  unfold EconetClient.set_param, EconetClient._get.
  eapply _get_loop_raises. reflexivity.
Qed.

Lemma fill_attr_raises (key : string) (data : json)
    (assign : state -> json -> state) (st : state) (e : exn) :
  fst (Econet300Api.fill_attr key data assign st) = Raise e -> e = TypeError.
Proof.
  unfold Econet300Api.fill_attr, bind, lift, ret.
  destruct data as [|b|n|s|l|m]; simpl; try (intros [= <-]; reflexivity).
  - destruct (Py.str_in key s); simpl; [|discriminate].
    intros [= <-]. reflexivity.
  - destruct (existsb _ l); simpl; [|discriminate].
    intros [= <-]. reflexivity.
  - destruct (m !! key); simpl; discriminate.
Qed.

Lemma seq_raises (m k : M unit) (st : state) (e : exn) :
  fst ((m ;;; k) st) = Raise e ->
  fst (m st) = Raise e \/ exists st', fst (k st') = Raise e.
Proof.
  unfold bind. destruct (m st) as [[[]|e0] st1]; simpl; eauto.
Qed.

Lemma init_raises (st : state) (e : exn) :
  fst (Econet300Api.init net client st) = Raise e ->
  e = AuthError \/ e = ClientError \/ e = TypeError.
Proof.
  destruct (EconetClient.fetch_sys_params net client API_SYS_PARAMS_URI st)
    as [[data|e0] st1] eqn:Hc.
  - rewrite (init_after_fetch _ _ _ Hc). intros Hr.
    assert (e = TypeError) as ->; [|auto].
    destruct data; [discriminate Hr| | | | |];
      (apply seq_raises in Hr; destruct Hr as [Hr | [st2 Hr]];
       [eapply fill_attr_raises, Hr|];
       apply seq_raises in Hr; destruct Hr as [Hr | [st3 Hr]];
       [eapply fill_attr_raises, Hr|];
       apply seq_raises in Hr; destruct Hr as [Hr | [st4 Hr]];
       eapply fill_attr_raises, Hr).
  - rewrite (init_raise net client _ _ _ Hc). simpl. intros [= <-].
    pose proof (client_fetch_sys_params_raises net client
                  API_SYS_PARAMS_URI st e0) as Hcl.
    rewrite Hc in Hcl. destruct (Hcl eq_refl); auto.
Qed.

Lemma set_param_raises (param : option string) (value : string)
    (st : state) (e : exn) :
  fst (Econet300Api.set_param net client param value st) = Raise e ->
  e = AuthError \/ e = ClientError \/ e = TypeError.
Proof.
  destruct param as [key|]; [|discriminate].
  destruct (EconetClient.set_param net client key value st)
    as [[data|e0] st1] eqn:Hc.
  - unfold Econet300Api.set_param, bind. rewrite Hc.
    unfold lift, ret, Econet300Api._cache_set.
    destruct data as [|b|n|s|l|m]; simpl;
      try discriminate; try (intros [= <-]; auto).
    + destruct (Py.str_in "result" s); simpl; [|discriminate].
      intros [= <-]. auto.
    + destruct (existsb _ l); simpl; [|discriminate].
      intros [= <-]. auto.
    + destruct (m !! "result") as [r|]; simpl; [|discriminate].
      destruct (negb (Py.eq_str r "OK")); discriminate.
  - rewrite (set_param_raise net client key value st _ e0 Hc). simpl.
    intros [= <-].
    pose proof (client_set_param_raises key value st e0) as Hcl.
    rewrite Hc in Hcl. destruct (Hcl eq_refl); auto.
Qed.

Lemma _fetch_reg_key_raises (reg : string) (data_key : option string)
    (st : state) (e : exn) :
  fst (Econet300Api._fetch_reg_key net client reg data_key st) = Raise e ->
  e = AuthError \/ e = ClientError \/ e = TypeError \/ e = DataError.
Proof.
  destruct (EconetClient.fetch_sys_params net client reg st)
    as [[data|e0] st1] eqn:Hc.
  - unfold Econet300Api._fetch_reg_key, bind. rewrite Hc.
    unfold lift, ret, raise.
    destruct data_key as [key|];
      [|destruct data; simpl; try discriminate; intros [= <-]; auto].
    destruct data as [|b|n|s|l|m]; simpl; try (intros [= <-]; auto).
    + destruct (Py.str_in key s); simpl; intros [= <-]; auto.
    + destruct (existsb _ l); simpl; intros [= <-]; auto.
    + destruct (m !! key); simpl; [discriminate|]. intros [= <-]. auto.
  - rewrite (_fetch_reg_key_raise net client _ _ _ _ _ Hc). simpl.
    intros [= <-].
    pose proof (client_fetch_sys_params_raises net client reg st e0) as Hcl.
    rewrite Hc in Hcl. destruct (Hcl eq_refl); auto.
Qed.

(** X15. What each operation of the facade can let out, on any network.
    [fetch_sys_params] raises nothing but what the client raises,
    [AuthError] and [ClientError].  [init], [set_param] and
    [fetch_reg_params_data] add [TypeError] and never raise [DataError].
    [fetch_reg_params] and [fetch_param_edit_data] add [DataError].  Only
    [get_param_limits] can raise [KeyError]. *)
Theorem call_raises (o : op) (st : state) (e : exn) :
  fst (call net client o st) = Raise e -> In e (may_raise o).
Proof.
  destruct o as [|param value|param| | | |]; unfold call;
    rewrite bind_ret_fst; cbn [may_raise In].
  - destruct (fst (Econet300Api.init net client st)) as [v|e0] eqn:Hr;
      [discriminate|]. intros [= <-].
    destruct (init_raises st e0 Hr) as [-> | [-> | ->]]; auto.
  - destruct (fst (Econet300Api.set_param net client param value st))
      as [v|e0] eqn:Hr; [discriminate|]. intros [= <-].
    destruct (set_param_raises param value st e0 Hr) as [-> | [-> | ->]];
      auto.
  - intros _. destruct e; auto 10.
  - rewrite fetch_reg_params_data_key.
    destruct (Econet300Api._fetch_reg_key net client API_REG_PARAMS_DATA_URI
                (Some API_REG_PARAMS_DATA_PARAM_DATA) st)
      as [[v|e0] st1] eqn:Hk; [discriminate|].
    pose proof (_fetch_reg_key_raises API_REG_PARAMS_DATA_URI
                  (Some API_REG_PARAMS_DATA_PARAM_DATA) st e0) as Hcl.
    rewrite Hk in Hcl.
    destruct (Hcl eq_refl) as [-> | [-> | [-> | ->]]]; simpl;
      try discriminate; intros [= <-]; auto.
  - destruct (MemCache.exists_ (cache st) API_EDITABLE_PARAMS_LIMITS_DATA)
      eqn:Hex.
    + unfold MemCache.exists_ in Hex.
      destruct (cache st !! API_EDITABLE_PARAMS_LIMITS_DATA)
        as [limits|] eqn:Hget; [|discriminate].
      now rewrite (fetch_param_edit_data_cached limits st Hget).
    + rewrite (fetch_param_edit_data_cold net client st Hex).
      destruct (Econet300Api._fetch_reg_key net client
                  API_EDITABLE_PARAMS_LIMITS_URI
                  (Some API_EDITABLE_PARAMS_LIMITS_DATA) st)
        as [[v|e0] st1] eqn:Hk; [discriminate|].
      pose proof (_fetch_reg_key_raises API_EDITABLE_PARAMS_LIMITS_URI
                    (Some API_EDITABLE_PARAMS_LIMITS_DATA) st e0) as Hcl.
      rewrite Hk in Hcl. simpl. intros [= <-].
      destruct (Hcl eq_refl) as [-> | [-> | [-> | ->]]]; auto.
  - unfold Econet300Api.fetch_sys_params.
    destruct (fst (EconetClient.fetch_sys_params net client
                     API_SYS_PARAMS_URI st)) as [v|e0] eqn:Hr;
      [discriminate|]. intros [= <-].
    destruct (client_fetch_sys_params_raises net client _ _ _ Hr)
      as [-> | ->]; auto.
  - rewrite fetch_reg_params_key.
    destruct (fst (Econet300Api._fetch_reg_key net client API_REG_PARAMS_URI
                     (Some API_REG_PARAMS_PARAM_DATA) st))
      as [v|e0] eqn:Hr; [discriminate|]. intros [= <-].
    destruct (_fetch_reg_key_raises _ _ _ _ Hr) as [-> | [-> | [-> | ->]]];
      auto.
Qed.

End ApiMore.

Section MakeApi.

Context {K : Const}.
Variable net : list event -> string -> outcome.

(** X16. [make_api] puts the pieces together: the new client stores the
    normalised host, the new facade object is initialised over it, and the
    first thing on the network is the request of the system parameters at
    that host.  The cache that was passed in is not written.  For a host
    without ["http://"] and ["https://"] in it the request goes to
    ["http://"] + host + ["/econet/"] + the registry. *)
Theorem make_api_first_request (cache0 : gmap string json)
    (host username password : string) (tr : list event) :
  let made := make_api net cache0 host username password tr in
  let stored :=
    EconetClient.host (EconetClient.__init__ host username password) in
  (exists evs,
     trace (snd made)
       = (tr ++ EvGet (stored +:+ "/econet/" +:+ API_SYS_PARAMS_URI) :: evs)%list) /\
  cache (snd made) = cache0 /\
  (Py.str_in "http://" host = false ->
   Py.str_in "https://" host = false ->
   stored = "http://" +:+ host).
Proof.
  intros made stored. subst made. unfold make_api, Econet300Api.create.
  split; [|split].
  - rewrite (init_trace net).
    destruct (client_fetch_sys_params_frame net
                (EconetClient.__init__ host username password)
                API_SYS_PARAMS_URI (Econet300Api.__init__ cache0 tr))
      as [evs ->].
    exists evs. reflexivity.
  - apply (init_same_cache net).
  - intros Hhttp Hhttps. subst stored.
    unfold EconetClient.host, EconetClient.__init__, EconetClient.proto.
    cbn [forallb EconetClient._host]. now rewrite Hhttp, Hhttps.
Qed.

End MakeApi.

(** * Properties of the sensor platform *)

Section SensorFacts.

Context {SC : SensorConst}.

Lemma controller_sensors_loop_object (reg : gmap string json)
    (keys : list string) :
  forall entities,
    Sensor.controller_sensors_loop keys (JObj reg) entities
    = Ok (entities ++
          List.map
            (fun key => Sensor.EconetSensor (Sensor.create_entity_description key))
            (List.filter (in_reg reg) keys))%list.
Proof.
  induction keys as [|key keys IH]; intros entities; simpl.
  - now rewrite app_nil_r.
  - unfold in_reg at 1. destruct (reg !! key); simpl; rewrite IH;
      [|reflexivity].
    now rewrite <- app_assoc.
Qed.

(** X17. The controller sensors are the default keys that have an entry
    in the register parameters: when the coordinator's data has an object
    under ["regParams"], [create_controller_sensors] returns one sensor for
    each key of [SENSOR_MAP_KEY["_default"]] that is in that object, in the
    order of the keys, with the description of the key, and none for the
    other keys.  A key whose entry is [None] gets its sensor too. *)
Theorem create_controller_sensors_present
    (coordinator : Sensor.EconetDataCoordinator)
    (d reg : gmap string json) (keys : list string) :
  Sensor.data coordinator = JObj d ->
  d !! "regParams" = Some (JObj reg) ->
  SENSOR_MAP_KEY !! "_default" = Some keys ->
  Sensor.create_controller_sensors coordinator
    = Ok (List.map
            (fun key => Sensor.EconetSensor (Sensor.create_entity_description key))
            (List.filter (in_reg reg) keys)) /\
  (forall key,
     In (Sensor.EconetSensor (Sensor.create_entity_description key))
        (List.map
           (fun key => Sensor.EconetSensor (Sensor.create_entity_description key))
           (List.filter (in_reg reg) keys)) <->
     In key keys /\ is_Some (reg !! key)).
Proof.
  intros Hd Hreg Hkeys. split.
  - unfold Sensor.create_controller_sensors. rewrite Hd. simpl.
    rewrite Hreg. simpl. rewrite Hkeys.
    now rewrite controller_sensors_loop_object.
  - intros key. rewrite in_map_iff. split.
    + intros (k & Heq & Hin). injection Heq as Hk. subst k.
      apply List.filter_In in Hin. destruct Hin as [Hin Hpres].
      split; [exact Hin|]. unfold in_reg in Hpres.
      destruct (reg !! key); [eauto|discriminate].
    + intros [Hin [v Hv]]. exists key. split; [reflexivity|].
      apply List.filter_In. split; [exact Hin|].
      unfold in_reg. now rewrite Hv.
Qed.

(** X18. The edges of [can_add_mixer].  The register parameters are read
    for the debug message before anything else: without ["regParams"] in the
    data the call raises [KeyError], and on data that is [None] it raises
    [TypeError], whatever [has_reg_data] says.  With an object under
    ["regParams"]: [False] when [has_reg_data] says no, without a look at the
    key; when it says yes, [KeyError] for a key that is not there, and
    otherwise whether the reading is not [None]. *)
Theorem can_add_mixer_edges (key : string)
    (coordinator : Sensor.EconetDataCoordinator) :
  (forall d,
     Sensor.data coordinator = JObj d -> d !! "regParams" = None ->
     Sensor.can_add_mixer key coordinator = Raise KeyError) /\
  (Sensor.data coordinator = JNull ->
   Sensor.can_add_mixer key coordinator = Raise TypeError) /\
  (forall d reg,
     Sensor.data coordinator = JObj d ->
     d !! "regParams" = Some (JObj reg) ->
     (Sensor.has_reg_data coordinator key = false ->
      Sensor.can_add_mixer key coordinator = Ok false) /\
     (Sensor.has_reg_data coordinator key = true ->
      reg !! key = None ->
      Sensor.can_add_mixer key coordinator = Raise KeyError) /\
     (forall v,
        Sensor.has_reg_data coordinator key = true ->
        reg !! key = Some v ->
        Sensor.can_add_mixer key coordinator = Ok (Sensor.is_not_none v))).
Proof.
  unfold Sensor.can_add_mixer. split; [|split].
  - intros d -> Hnone. simpl. now rewrite Hnone.
  - intros ->. reflexivity.
  - intros d reg -> Hreg. simpl. rewrite Hreg. simpl.
    split; [|split].
    + intros ->. reflexivity.
    + intros -> ->. reflexivity.
    + intros v -> ->. reflexivity.
Qed.

Lemma can_add_mixer_object (key : string)
    (coordinator : Sensor.EconetDataCoordinator)
    (d reg : gmap string json) :
  Sensor.data coordinator = JObj d ->
  d !! "regParams" = Some (JObj reg) ->
  (Sensor.has_reg_data coordinator key = true -> is_Some (reg !! key)) ->
  Sensor.can_add_mixer key coordinator
    = Ok (Sensor.has_reg_data coordinator key && has_value reg key).
Proof.
  intros Hd Hreg Hcons. unfold Sensor.can_add_mixer.
  rewrite Hd. simpl. rewrite Hreg. simpl.
  unfold has_value.
  destruct (Sensor.has_reg_data coordinator key); [|reflexivity].
  destruct (Hcons eq_refl) as [v Hv]. now rewrite Hv.
Qed.

Lemma mixer_keys_loop_object (i : nat)
    (coordinator : Sensor.EconetDataCoordinator)
    (d reg : gmap string json) (keys : list string) :
  Sensor.data coordinator = JObj d ->
  d !! "regParams" = Some (JObj reg) ->
  (forall key, Sensor.has_reg_data coordinator key = true ->
               is_Some (reg !! key)) ->
  forall entities,
    Sensor.mixer_keys_loop i keys coordinator entities
    = Ok (entities ++
          List.map
            (fun key =>
               Sensor.MixerSensor
                 (Sensor.create_mixer_sensor_entity_description key) i)
            (List.filter
               (fun key => Sensor.has_reg_data coordinator key
                           && has_value reg key) keys))%list.
Proof.
  intros Hd Hreg Hcons.
  induction keys as [|key keys IH]; intros entities; simpl.
  - now rewrite app_nil_r.
  - rewrite (can_add_mixer_object key coordinator d reg Hd Hreg (Hcons key)).
    simpl.
    destruct (Sensor.has_reg_data coordinator key && has_value reg key);
      rewrite IH; [|reflexivity].
    now rewrite <- app_assoc.
Qed.

Lemma mixers_loop_object (coordinator : Sensor.EconetDataCoordinator)
    (d reg : gmap string json) (numbers : list nat) :
  Sensor.data coordinator = JObj d ->
  d !! "regParams" = Some (JObj reg) ->
  (forall key, Sensor.has_reg_data coordinator key = true ->
               is_Some (reg !! key)) ->
  forall entities,
    Sensor.mixers_loop numbers coordinator entities
    = Ok (entities ++
          List.flat_map (mixer_sensors coordinator reg) numbers)%list.
Proof.
  intros Hd Hreg Hcons.
  induction numbers as [|i numbers IH]; intros entities.
  - simpl. now rewrite app_nil_r.
  - cbn [Sensor.mixers_loop List.flat_map]. unfold mixer_sensors at 1.
    destruct (SENSOR_MIXER_KEY !! pretty i) as [[|key keys]|].
    + now rewrite IH.
    + rewrite (mixer_keys_loop_object i coordinator d reg (key :: keys)
                 Hd Hreg Hcons).
      cbn [Sensor.rbind]. rewrite IH. now rewrite <- app_assoc.
    + now rewrite IH.
Qed.

(** X19. The mixer sensors.  When the coordinator's data has an object
    under ["regParams"] and [has_reg_data] says yes only for keys of that
    object, [create_mixer_sensors] returns, for the mixers 1 to
    [AVAILABLE_NUMBER_OF_MIXERS] in turn, one sensor for each key listed for
    the mixer that [has_reg_data] accepts and whose reading is not [None].
    So every sensor it returns carries a mixer number in that range and a
    key with a reading that is not [None]. *)
Theorem create_mixer_sensors_readings
    (coordinator : Sensor.EconetDataCoordinator)
    (d reg : gmap string json) :
  Sensor.data coordinator = JObj d ->
  d !! "regParams" = Some (JObj reg) ->
  (forall key, Sensor.has_reg_data coordinator key = true ->
               is_Some (reg !! key)) ->
  Sensor.create_mixer_sensors coordinator
    = Ok (List.flat_map (mixer_sensors coordinator reg)
            (seq 1 AVAILABLE_NUMBER_OF_MIXERS)) /\
  (forall e,
     In e (List.flat_map (mixer_sensors coordinator reg)
             (seq 1 AVAILABLE_NUMBER_OF_MIXERS)) ->
     exists key i keys v,
       e = Sensor.MixerSensor
             (Sensor.create_mixer_sensor_entity_description key) i /\
       (1 <= i <= AVAILABLE_NUMBER_OF_MIXERS)%nat /\
       SENSOR_MIXER_KEY !! pretty i = Some keys /\ In key keys /\
       Sensor.has_reg_data coordinator key = true /\
       reg !! key = Some v /\ v <> JNull).
Proof.
  intros Hd Hreg Hcons. split.
  - unfold Sensor.create_mixer_sensors.
    now rewrite (mixers_loop_object coordinator d reg _ Hd Hreg Hcons).
  - intros e Hin. apply in_flat_map in Hin. destruct Hin as (i & Hi & Hin).
    apply in_seq in Hi. unfold mixer_sensors in Hin.
    destruct (SENSOR_MIXER_KEY !! pretty i) as [keys|] eqn:Hkeys;
      [|contradiction].
    apply in_map_iff in Hin. destruct Hin as (key & <- & Hin).
    apply List.filter_In in Hin. destruct Hin as [Hin Hok].
    apply andb_true_iff in Hok. destruct Hok as [Hhas Hval].
    unfold has_value in Hval.
    destruct (reg !! key) as [v|] eqn:Hv; [|discriminate].
    exists key, i, keys, v. repeat split; auto; try lia.
    intros ->. discriminate.
Qed.

End SensorFacts.

(** ** The further properties at sample worlds *)

Lemma get_retries_then_answer_witness :
  let url := "http://boiler.local/econet/sysParams" in
  let body := JObj {[ "uid" := JStr "ABC123" ]} in
  ((1 < 5)%nat /\
   (forall i, (i < 1)%nat ->
      net_slow_start body (trace fresh ++ timeouts url i) url = Timeout) /\
   net_slow_start body (trace fresh ++ timeouts url 1) url
     = Response 200 body) /\
  EconetClient._get (net_slow_start body) sample_client url fresh
    = (Ok body, with_trace fresh [EvGet url; EvSleep 1; EvGet url]).
Proof.
  intros url body.
  assert (forall i, (i < 1)%nat ->
            net_slow_start body (trace fresh ++ timeouts url i) url = Timeout)
    as Hto.
  { intros [|i] Hi; [reflexivity | lia]. }
  split; [split; [lia | split; [exact Hto | reflexivity]]|].
  destruct (get_retries_then_answer (net_slow_start body) sample_client url
              fresh 1 200 body ltac:(lia) Hto eq_refl) as (Hst & H200 & _).
  rewrite (surjective_pairing (EconetClient._get _ _ _ _)).
  rewrite Hst, (H200 eq_refl). reflexivity.
Defined.

Lemma get_failure_not_retried_witness :
  let url := "http://boiler.local/econet/sysParams" in
  ((1 < 5)%nat /\
   (forall i, (i < 1)%nat ->
      net_then_fails (trace fresh ++ timeouts url i) url = Timeout) /\
   net_then_fails (trace fresh ++ timeouts url 1) url = Failed) /\
  EconetClient._get net_then_fails sample_client url fresh
    = (Raise ClientError,
       with_trace fresh [EvGet url; EvSleep 1; EvGet url]).
Proof.
  intros url.
  assert (forall i, (i < 1)%nat ->
            net_then_fails (trace fresh ++ timeouts url i) url = Timeout)
    as Hto.
  { intros [|i] Hi; [reflexivity | lia]. }
  split; [split; [lia | split; [exact Hto | reflexivity]]|].
  exact (get_failure_not_retried net_then_fails sample_client url fresh 1
           ltac:(lia) Hto eq_refl).
Defined.

Lemma client_raises_witness :
  fst (EconetClient._get (net_always 401 JNull) sample_client
         "http://boiler.local/econet/sysParams" fresh) = Raise AuthError /\
  exists k body,
    (k < 5)%nat /\
    net_always 401 JNull
      (trace fresh ++ timeouts "http://boiler.local/econet/sysParams" k)
      "http://boiler.local/econet/sysParams"
    = Response HTTPStatus.UNAUTHORIZED body.
Proof.
  assert (fst (EconetClient._get (net_always 401 JNull) sample_client
                 "http://boiler.local/econet/sysParams" fresh)
          = Raise AuthError) as Hr by (vm_compute; reflexivity).
  split; [exact Hr|].
  destruct (client_raises (net_always 401 JNull) sample_client _ _ _ Hr)
    as [[_ H] | [Habs _]]; [exact H | discriminate Habs].
Defined.

Lemma limits_reads_share_cache_witness :
  let net := net_always 200 sample_limits_envelope in
  let st1 :=
    with_trace fresh
      [EvGet "http://boiler.local/econet/rmCurrentDataParamsEdits"] in
  let st2 := with_cache st1 {[ "data" := sample_limits ]} in
  (MemCache.exists_ (cache fresh) "data" = false /\
   Econet300Api._fetch_reg_key net sample_client "rmCurrentDataParamsEdits"
     (Some "data") fresh = (Ok sample_limits, st1)) /\
  Econet300Api.fetch_param_edit_data (K := sample_const) net sample_client
    fresh = (Ok sample_limits, st2) /\
  Econet300Api.fetch_param_edit_data (K := sample_const) net sample_client
    st2 = (Ok sample_limits, st2) /\
  snd (Econet300Api.get_param_limits (K := sample_const) net sample_client
         (Some "1280") st2) = st2.
Proof.
  intros net st1 st2.
  assert (MemCache.exists_ (cache fresh) "data" = false) as Hcold
    by reflexivity.
  assert (Econet300Api._fetch_reg_key net sample_client
            "rmCurrentDataParamsEdits" (Some "data") fresh
          = (Ok sample_limits, st1)) as Hfetch by (vm_compute; reflexivity).
  split; [split; assumption|].
  destruct (limits_reads_share_cache (K := sample_const) net sample_client
              fresh st1 sample_limits None (Some "1280") Hcold Hfetch)
    as (Hfirst & _ & Hagain & Hlook & Hstate).
  split; [exact Hfirst|]. split; [exact Hagain|].
  exact (eq_trans (f_equal snd Hlook) Hstate).
Defined.

Lemma limits_fetch_failure_not_cached_witness :
  let st1 :=
    with_trace fresh
      [EvGet "http://boiler.local/econet/rmCurrentDataParamsEdits"] in
  (MemCache.exists_ (cache fresh) "data" = false /\
   Econet300Api._fetch_reg_key (net_always 500 JNull) sample_client
     "rmCurrentDataParamsEdits" (Some "data") fresh
   = (Raise DataError, st1)) /\
  Econet300Api.get_param_limits (K := sample_const) (net_always 500 JNull)
    sample_client (Some "1280") fresh = (Raise DataError, st1) /\
  MemCache.exists_ (cache st1) "data" = false.
Proof.
  intros st1.
  assert (Econet300Api._fetch_reg_key (net_always 500 JNull) sample_client
            "rmCurrentDataParamsEdits" (Some "data") fresh
          = (Raise DataError, st1)) as Hfetch by (vm_compute; reflexivity).
  split; [split; [reflexivity | exact Hfetch]|].
  destruct (limits_fetch_failure_not_cached (K := sample_const)
              (net_always 500 JNull) sample_client fresh st1 DataError
              (Some "1280") eq_refl Hfetch) as (Hget & _ & _ & Hcold).
  split; [exact Hget | exact Hcold].
Defined.

Lemma get_param_limits_cached_lookup_witness :
  let st := with_cache fresh {[ "data" := sample_limits ]} in
  MemCache.get (cache st) "data" = Some sample_limits /\
  Econet300Api.get_param_limits (K := sample_const) net_dead sample_client
    (Some "1280") st
  = (Ok (Some (Limits.mk (JNum 27) (JNum 68))), st) /\
  fst (Econet300Api.get_param_limits (K := sample_const) net_dead
         sample_client (Some "1281") st) = Ok None.
Proof.
  intros st.
  assert (MemCache.get (cache st) "data" = Some sample_limits) as Hget
    by reflexivity.
  split; [exact Hget|]. split.
  - destruct (get_param_limits_cached_lookup (K := sample_const) net_dead
                sample_client st _ "1280" Hget) as [Hst Hr].
    rewrite (surjective_pairing (Econet300Api.get_param_limits _ _ _ _)).
    rewrite Hst, Hr. vm_compute. reflexivity.
  - destruct (get_param_limits_cached_lookup (K := sample_const) net_dead
                sample_client st _ "1281" Hget) as [_ Hr].
    rewrite Hr. vm_compute. reflexivity.
Defined.

Lemma null_limits_table_sticks_witness :
  let net := net_always 200 (JObj {[ "data" := JNull ]}) in
  let st1 :=
    with_trace fresh
      [EvGet "http://boiler.local/econet/rmCurrentDataParamsEdits"] in
  let st2 := with_cache st1 {[ "data" := JNull ]} in
  (MemCache.exists_ (cache fresh) "data" = false /\
   EconetClient.fetch_sys_params net sample_client
     "rmCurrentDataParamsEdits" fresh
   = (Ok (JObj {[ "data" := JNull ]}), st1)) /\
  Econet300Api.get_param_limits (K := sample_const) net sample_client
    (Some "1280") fresh = (Raise TypeError, st2) /\
  Econet300Api.get_param_limits (K := sample_const) net sample_client
    (Some "1280") st2 = (Raise TypeError, st2).
Proof.
  intros net st1 st2.
  assert (EconetClient.fetch_sys_params net sample_client
            "rmCurrentDataParamsEdits" fresh
          = (Ok (JObj {[ "data" := JNull ]}), st1)) as Hc
    by (vm_compute; reflexivity).
  split; [split; [reflexivity | exact Hc]|].
  destruct (null_limits_table_sticks (K := sample_const) net sample_client
              fresh st1 {[ "data" := JNull ]} "1280" eq_refl Hc
              ltac:(vm_compute; reflexivity))
    as (_ & Hfirst & _ & Hlater).
  split; [exact Hfirst | exact Hlater].
Defined.

Lemma init_object_all_witness :
  let net := net_always 200 sample_sys_params_full in
  let st1 := with_trace fresh [EvGet "http://boiler.local/econet/sysParams"] in
  let st' :=
    snd (Econet300Api.init (K := sample_const) net sample_client fresh) in
  EconetClient.fetch_sys_params net sample_client "sysParams" fresh
    = (Ok sample_sys_params_full, st1) /\
  Econet300Api.uid st' = JStr "ABC123" /\
  Econet300Api.hw_ver st' = JStr "ecoNET300" /\
  cache st' = ∅.
Proof.
  intros net st1 st'.
  assert (EconetClient.fetch_sys_params net sample_client "sysParams" fresh
          = (Ok sample_sys_params_full, st1)) as Hc
    by (vm_compute; reflexivity).
  split; [exact Hc|].
  destruct (init_object_all (K := sample_const) net sample_client fresh st1
              _ Hc) as (_ & Huid & _ & _ & Hhw & Hcache & _).
  subst st'. rewrite Huid, Hhw, Hcache. vm_compute. auto.
Defined.

Lemma init_non_object_witness :
  let net := net_always 200 (JNum 7) in
  let st1 := with_trace fresh [EvGet "http://boiler.local/econet/sysParams"] in
  (EconetClient.fetch_sys_params net sample_client "sysParams" fresh
     = (Ok (JNum 7), st1) /\
   forall env, JNum 7 <> JObj env) /\
  Econet300Api.init (K := sample_const) net sample_client fresh
    = (Raise TypeError, st1).
Proof.
  intros net st1.
  assert (EconetClient.fetch_sys_params net sample_client "sysParams" fresh
          = (Ok (JNum 7), st1)) as Hc by (vm_compute; reflexivity).
  assert (forall env, JNum 7 <> JObj env) as Hno by (intros env; discriminate).
  split; [split; assumption|].
  destruct (init_non_object (K := sample_const) net sample_client fresh st1
              (JNum 7) Hc Hno) as (Hst & _ & _ & _ & _ & Hnum).
  rewrite (surjective_pairing (Econet300Api.init _ _ _)).
  rewrite Hst, Hnum; [reflexivity|]. right. eauto.
Defined.

Lemma identity_only_in_init_witness :
  SetParam (Some "1280") "60" <> Init /\
  Econet300Api.uid
    (snd (call (K := sample_const)
            (net_always 200 (JObj {[ "result" := JStr "OK" ]}))
            sample_client (SetParam (Some "1280") "60") fresh))
  = JStr "default-uid".
Proof.
  assert (SetParam (Some "1280") "60" <> Init) as Hne by discriminate.
  split; [exact Hne|].
  destruct (identity_only_in_init (K := sample_const)
              (net_always 200 (JObj {[ "result" := JStr "OK" ]}))
              sample_client _ fresh Hne) as (Huid & _).
  rewrite Huid. reflexivity.
Defined.

Lemma call_raises_witness :
  fst (call (K := sample_const) (net_always 500 JNull) sample_client
         FetchRegParams fresh) = Raise DataError /\
  In DataError (may_raise FetchRegParams).
Proof.
  assert (fst (call (K := sample_const) (net_always 500 JNull) sample_client
                 FetchRegParams fresh) = Raise DataError) as Hr
    by (vm_compute; reflexivity).
  split; [exact Hr|].
  exact (call_raises (K := sample_const) (net_always 500 JNull)
           sample_client _ _ _ Hr).
Defined.

(** Of the three default keys the two that are in the register parameters
    get a sensor, the one with [None] included. *)
Lemma create_controller_sensors_present_witness :
  (Sensor.data sample_coordinator
     = JObj {[ "regParams" := JObj sample_reg_params ]} /\
   ({[ "regParams" := JObj sample_reg_params ]} : gmap string json)
     !! "regParams" = Some (JObj sample_reg_params) /\
   SENSOR_MAP_KEY (SensorConst := sample_sensor_const) !! "_default"
     = Some ["boilerPower"; "tempCO"; "fanPower"]) /\
  Sensor.create_controller_sensors (SC := sample_sensor_const)
    sample_coordinator
  = Ok [Sensor.EconetSensor
          (Sensor.create_entity_description (SC := sample_sensor_const)
             "boilerPower");
        Sensor.EconetSensor
          (Sensor.create_entity_description (SC := sample_sensor_const)
             "tempCO")].
Proof.
  assert (SENSOR_MAP_KEY (SensorConst := sample_sensor_const) !! "_default"
          = Some ["boilerPower"; "tempCO"; "fanPower"]) as Hkeys
    by (vm_compute; reflexivity).
  assert (({[ "regParams" := JObj sample_reg_params ]} : gmap string json)
            !! "regParams" = Some (JObj sample_reg_params)) as Hreg
    by (vm_compute; reflexivity).
  split; [split; [reflexivity | split; assumption]|].
  destruct (create_controller_sensors_present (SC := sample_sensor_const)
              sample_coordinator _ _ _ eq_refl Hreg Hkeys) as [Heq _].
  rewrite Heq. vm_compute. reflexivity.
Defined.

(** Mixer 1 has one reading with a value and one that is [None]; mixer 2
    has none: one mixer sensor. *)
Lemma create_mixer_sensors_readings_witness :
  (forall key,
     Sensor.has_reg_data sample_coordinator key = true ->
     is_Some (sample_reg_params !! key)) /\
  Sensor.create_mixer_sensors (SC := sample_sensor_const) sample_coordinator
  = Ok [Sensor.MixerSensor
          (Sensor.create_mixer_sensor_entity_description
             (SC := sample_sensor_const) "mixerTemp1") 1].
Proof.
  assert (forall key,
            Sensor.has_reg_data sample_coordinator key = true ->
            is_Some (sample_reg_params !! key)) as Hcons.
  { intros key. simpl. unfold in_reg.
    destruct (sample_reg_params !! key); [eauto | discriminate]. }
  split; [exact Hcons|].
  destruct (create_mixer_sensors_readings (SC := sample_sensor_const)
              sample_coordinator _ sample_reg_params eq_refl
              ltac:(vm_compute; reflexivity) Hcons) as [Heq _].
  rewrite Heq. vm_compute. reflexivity.
Defined.
